(** * akc-node-sdk: the query service and its session cache

    A shallow embedding of [lib/utils/common.js] (the process-wide client and
    channel singletons) and of the query service (chaincode queries, ledger
    inspection, block crawling and the block-header hash), followed by the
    properties of the design document that concern them.

    JavaScript values are embedded as a small untyped universe ([value]);
    property access, truthiness and string conversion follow ECMAScript.
    Code that can throw returns a [result]; code that reads or writes the
    global singletons threads a [Store]. *)

From Stdlib Require Import ZArith NArith List String Ascii Bool Lia.
From Stdlib.Strings Require Import Byte.
From Stdlib Require Import DecimalString DecimalZ DecimalN DecimalFacts.
Import ListNotations.

Set Warnings "-register-all".

Local Open Scope string_scope.
Local Open Scope list_scope.
Local Open Scope Z_scope.

Infix "+++" := String.append (at level 60, right associativity).

(** ** JavaScript values *)

(** The values the two modules manipulate.  Numbers are the safe integers
    (those below 2^53 in magnitude, which a double holds and prints
    exactly), plus [VNaN]; [VErr] is an instance of [Error]
    with its [name] and its own [message] property, when it has one;
    [VBuf] is a Node [Buffer]; [VHandle] is an object of the ledger network
    client (a client or a channel), known only by its identity; [VHost] is a
    library module object. *)
Inductive value : Type :=
| VUndef
| VNull
| VBool (b : bool)
| VNum (n : Z)
| VNaN
| VStr (s : string)
| VArr (items : list value)
| VObj (props : list (string * value))
| VErr (name : string) (message : option string)
| VBuf (bytes : list byte)
| VHandle (id : nat)
| VHost (lib : string).

(** The outcome of an evaluation: a value, or a thrown exception. *)
Inductive result (A : Type) : Type :=
| Ok (a : A)
| Throw (e : value).
Arguments Ok {A} a.
Arguments Throw {A} e.

Definition rbind {A B} (r : result A) (k : A -> result B) : result B :=
  match r with
  | Ok a => k a
  | Throw e => Throw e
  end.

Notation "x <- r ;; k" := (rbind r (fun x => k))
  (at level 61, r at next level, right associativity).

Definition TypeError (m : string) : value := VErr "TypeError" (Some m).
Definition ReferenceError (m : string) : value := VErr "ReferenceError" (Some m).
Definition SyntaxError (m : string) : value := VErr "SyntaxError" (Some m).
Definition new_Error (m : string) : value := VErr "Error" (Some m).

(** [if (v)]: ToBoolean. *)
Definition truthy (v : value) : bool :=
  match v with
  | VUndef | VNull | VNaN => false
  | VBool b => b
  | VNum n => negb (n =? 0)
  | VStr s => negb (String.eqb s "")
  | _ => true
  end.

(** [a || b]. *)
Definition js_or (a b : value) : value := if truthy a then a else b.

Definition string_of_Z (n : Z) : string := NilEmpty.string_of_int (Z.to_int n).

Fixpoint join_comma (l : list string) : string :=
  match l with
  | [] => ""
  | [s] => s
  | s :: rest => s +++ "," +++ join_comma rest
  end.

(** ToString.  An array joins its elements with commas, [null] and
    [undefined] elements giving the empty string; an [Error] prints as
    [name: message]. *)
Fixpoint to_string (v : value) : string :=
  match v with
  | VUndef => "undefined"
  | VNull => "null"
  | VBool true => "true"
  | VBool false => "false"
  | VNum n => string_of_Z n
  | VNaN => "NaN"
  | VStr s => s
  | VArr items =>
      join_comma (map (fun x => match x with
                                | VUndef | VNull => ""
                                | _ => to_string x
                                end) items)
  | VObj _ => "[object Object]"
  | VErr name None => name
  | VErr name (Some m) =>
      if String.eqb m "" then name
      else if String.eqb name "" then m
      else name +++ ": " +++ m
  | VBuf bytes => string_of_list_byte bytes
  | VHandle _ => "[object Object]"
  | VHost _ => "[object Object]"
  end.

Fixpoint lookup (key : string) (props : list (string * value)) : value :=
  match props with
  | [] => VUndef
  | (k, v) :: rest => if String.eqb k key then v else lookup key rest
  end.

(** The array index a property key denotes: the canonical decimal numeral of
    a natural number. *)
Definition array_index (key : string) : option nat :=
  match NilEmpty.uint_of_string key with
  | Some u =>
      let n := N.of_uint u in
      if String.eqb (string_of_Z (Z.of_N n)) key then Some (N.to_nat n)
      else None
  | None => None
  end.

(** [v.key] and [v[key]].  Reading a property of [undefined] or [null]
    throws; a missing property is [undefined].  (The wording of the
    [TypeError] is V8's.) *)
Definition get_prop (v : value) (key : string) : result value :=
  match v with
  | VUndef | VNull =>
      Throw (TypeError ("Cannot read property '" +++ key +++ "' of "
                        +++ to_string v))
  | VObj props => Ok (lookup key props)
  | VArr items =>
      if String.eqb key "length" then Ok (VNum (Z.of_nat (List.length items)))
      else match array_index key with
           | Some i => Ok (nth i items VUndef)
           | None => Ok VUndef
           end
  | VStr s =>
      if String.eqb key "length" then Ok (VNum (Z.of_nat (String.length s)))
      else match array_index key with
           | Some i => match String.get i s with
                       | Some c => Ok (VStr (String c EmptyString))
                       | None => Ok VUndef
                       end
           | None => Ok VUndef
           end
  | VBuf bytes =>
      if String.eqb key "length" then Ok (VNum (Z.of_nat (List.length bytes)))
      else match array_index key with
           | Some i => match nth_error bytes i with
                       | Some b => Ok (VNum (Z.of_N (Byte.to_N b)))
                       | None => Ok VUndef
                       end
           | None => Ok VUndef
           end
  | VErr name message =>
      if String.eqb key "name" then Ok (VStr name)
      else if String.eqb key "message" then
        Ok (VStr (match message with Some m => m | None => "" end))
      else if String.eqb key "stack" then Ok (VStr (to_string v))
      else Ok VUndef
  | _ => Ok VUndef
  end.

(** ToNumber of a string, on the numerals of integers (the empty string is
    zero, anything else is [NaN]). *)
Definition number_of_string (s : string) : value :=
  if String.eqb s "" then VNum 0
  else match NilEmpty.int_of_string s with
       | Some d => if String.eqb (string_of_Z (Z.of_int d)) s
                   then VNum (Z.of_int d) else VNaN
       | None => VNaN
       end.

(** ToNumber: an object converts through its string. *)
Definition to_number (v : value) : value :=
  match v with
  | VNum n => VNum n
  | VUndef | VNaN => VNaN
  | VNull => VNum 0
  | VBool true => VNum 1
  | VBool false => VNum 0
  | _ => number_of_string (to_string v)
  end.

(** [a - 1]. *)
Definition js_pred (a : value) : value :=
  match to_number a with
  | VNum n => VNum (n - 1)
  | _ => VNaN
  end.

(** ** The runtime's library functions *)

Definition is_space (c : ascii) : bool :=
  match N_of_ascii c with
  | 9%N | 10%N | 11%N | 12%N | 13%N | 32%N => true
  | _ => false
  end.

Fixpoint skip_spaces (s : string) : string :=
  match s with
  | String c rest => if is_space c then skip_spaces rest else s
  | EmptyString => s
  end.

(** The longest prefix of decimal digits, as a numeral. *)
Fixpoint leading_digits (s : string) : Decimal.uint :=
  match s with
  | String c rest =>
      match c with
      | "0"%char => Decimal.D0 (leading_digits rest)
      | "1"%char => Decimal.D1 (leading_digits rest)
      | "2"%char => Decimal.D2 (leading_digits rest)
      | "3"%char => Decimal.D3 (leading_digits rest)
      | "4"%char => Decimal.D4 (leading_digits rest)
      | "5"%char => Decimal.D5 (leading_digits rest)
      | "6"%char => Decimal.D6 (leading_digits rest)
      | "7"%char => Decimal.D7 (leading_digits rest)
      | "8"%char => Decimal.D8 (leading_digits rest)
      | "9"%char => Decimal.D9 (leading_digits rest)
      | _ => Decimal.Nil
      end
  | EmptyString => Decimal.Nil
  end.

Definition hex_val (c : ascii) : option N :=
  let n := N_of_ascii c in
  if ((48 <=? n) && (n <=? 57))%N then Some (n - 48)%N
  else if ((97 <=? n) && (n <=? 102))%N then Some (n - 87)%N
  else if ((65 <=? n) && (n <=? 70))%N then Some (n - 55)%N
  else None.

(** The value of the longest prefix of hexadecimal digits, [None] when the
    string starts with none. *)
Fixpoint leading_hex (s : string) (acc : option N) : option N :=
  match s with
  | String c rest =>
      match hex_val c with
      | Some d => leading_hex rest
                    (Some (16 * match acc with Some a => a | None => 0 end + d)%N)
      | None => acc
      end
  | EmptyString => acc
  end.

(** [parseInt(v)] without a radix: the argument is converted to a string,
    leading white space and a sign are skipped, a [0x] prefix selects base
    16, and the longest prefix of digits is read; no digit gives [NaN]. *)
Definition parseInt (v : value) : value :=
  let s := skip_spaces (to_string v) in
  let '(neg, body) :=
    match s with
    | String "-"%char r => (true, r)
    | String "+"%char r => (false, r)
    | _ => (false, s)
    end in
  let magnitude :=
    match body with
    | String "0"%char (String "x"%char r) => leading_hex r None
    | String "0"%char (String "X"%char r) => leading_hex r None
    | _ => match leading_digits body with
           | Decimal.Nil => None
           | u => Some (N.of_uint u)
           end
    end in
  match magnitude with
  | Some m => VNum (if neg then - Z.of_N m else Z.of_N m)
  | None => VNaN
  end.

(** A byte from a number, as a [Buffer] stores it (modulo 256). *)
Definition byte_of_N (n : N) : byte :=
  match Byte.of_N (n mod 256) with
  | Some b => b
  | None => x00
  end.

(** Decoding of a hexadecimal string: pairs of digits, up to the first pair
    that is not two hexadecimal digits. *)
Fixpoint hex_decode (s : string) : list byte :=
  match s with
  | String a (String b rest) =>
      match hex_val a, hex_val b with
      | Some h, Some l => byte_of_N (16 * h + l) :: hex_decode rest
      | _, _ => []
      end
  | _ => []
  end.

(** [Buffer.from(v, 'hex')]. *)
Definition Buffer_from_hex (v : value) : result value :=
  match v with
  | VStr s => Ok (VBuf (hex_decode s))
  | VBuf bytes => Ok (VBuf bytes)
  | VArr items =>
      Ok (VBuf (map (fun x => match x with
                              | VNum n => byte_of_N (Z.to_N (n mod 256))
                              | _ => x00
                              end) items))
  | _ => Throw (TypeError ("The first argument must be of type string or an "
                           +++ "instance of Buffer, ArrayBuffer, or Array or "
                           +++ "an Array-like Object."))
  end.

Definition hex_char (n : N) : ascii :=
  match String.get (N.to_nat n) "0123456789abcdef" with
  | Some c => c
  | None => "0"%char
  end.

Definition hex_of_byte (b : byte) : string :=
  String (hex_char (Byte.to_N b / 16)) (String (hex_char (Byte.to_N b mod 16)) "").

Fixpoint hex_encode (l : list byte) : string :=
  match l with
  | [] => ""
  | b :: rest => hex_of_byte b +++ hex_encode rest
  end.

(** [util.format(fmt, ...args)] for the directives the sources use: [%s]
    takes the next argument, [%%] is a percent sign, any other character is
    copied, and the arguments left over are appended, separated by spaces. *)
Fixpoint util_format (fmt : string) (args : list value) : string :=
  match fmt with
  | String "%"%char (String "s"%char rest) =>
      match args with
      | a :: args' => to_string a +++ util_format rest args'
      | [] => "%s" +++ util_format rest []
      end
  | String "%"%char (String "%"%char rest) => "%" +++ util_format rest args
  | String c rest => String c (util_format rest args)
  | EmptyString =>
      fold_right (fun a acc => " " +++ to_string a +++ acc) "" args
  end.

(** *** SHA-256 (FIPS 180-4), the digest [sha.sha256] computes *)

Module SHA256.

Definition wrap (x : Z) : Z := x mod 4294967296.
Definition add (a b : Z) : Z := wrap (a + b).
Definition rotr (n x : Z) : Z :=
  Z.lor (Z.shiftr x n) (wrap (Z.shiftl x (32 - n))).
Definition shr (n x : Z) : Z := Z.shiftr x n.
Definition xor3 (a b c : Z) : Z := Z.lxor (Z.lxor a b) c.

Definition Ch (x y z : Z) : Z :=
  Z.lxor (Z.land x y) (Z.land (Z.lxor x 4294967295) z).
Definition Maj (x y z : Z) : Z :=
  xor3 (Z.land x y) (Z.land x z) (Z.land y z).
Definition Sigma0 (x : Z) : Z := xor3 (rotr 2 x) (rotr 13 x) (rotr 22 x).
Definition Sigma1 (x : Z) : Z := xor3 (rotr 6 x) (rotr 11 x) (rotr 25 x).
Definition sigma0 (x : Z) : Z := xor3 (rotr 7 x) (rotr 18 x) (shr 3 x).
Definition sigma1 (x : Z) : Z := xor3 (rotr 17 x) (rotr 19 x) (shr 10 x).

Definition is_prime (n : nat) : bool :=
  forallb (fun d => negb (Nat.eqb (Nat.modulo n d) 0)) (seq 2 (n - 2)).

(** The first sixty-four primes. *)
Definition primes : list Z :=
  Eval vm_compute in map Z.of_nat (filter is_prime (seq 2 310)).

(** The integer cube root, one bit at a time from bit [k - 1] down. *)
Fixpoint cube_root_bits (k : nat) (n r : Z) : Z :=
  match k with
  | O => r
  | S k' =>
      let r' := r + 2 ^ Z.of_nat k' in
      cube_root_bits k' n (if r' * r' * r' <=? n then r' else r)
  end.

Definition cube_root (n : Z) : Z := cube_root_bits 36 n 0.

(** The round constants: the first 32 bits of the fractional parts of the
    cube roots of the primes. *)
Definition K : list Z :=
  Eval vm_compute in map (fun p => wrap (cube_root (p * 2 ^ 96))) primes.

(** The initial hash value: the first 32 bits of the fractional parts of
    the square roots of the first eight primes. *)
Definition H0 : list Z :=
  Eval vm_compute in
    map (fun p => wrap (Z.sqrt (p * 2 ^ 64))) (firstn 8 primes).

(** The [width] low-order bytes of [x], most significant first. *)
Fixpoint be_fixed (width : nat) (x : Z) : list byte :=
  match width with
  | O => []
  | S w => be_fixed w (x / 256) ++ [byte_of_N (Z.to_N (x mod 256))]
  end.

Definition pad (msg : list byte) : list byte :=
  let len := Z.of_nat (List.length msg) in
  msg ++ [x80] ++ repeat x00 (Z.to_nat ((55 - len) mod 64))
      ++ be_fixed 8 (8 * len).

Definition zbyte (b : byte) : Z := Z.of_N (Byte.to_N b).

Fixpoint words (l : list byte) : list Z :=
  match l with
  | a :: b :: c :: d :: rest =>
      (((zbyte a * 256 + zbyte b) * 256 + zbyte c) * 256 + zbyte d)
        :: words rest
  | _ => []
  end.

Fixpoint blocks (fuel : nat) (ws : list Z) : list (list Z) :=
  match fuel with
  | O => []
  | S f => match ws with
           | [] => []
           | _ => firstn 16 ws :: blocks f (skipn 16 ws)
           end
  end.

(** The message schedule: [n] more words after those of [w]. *)
Fixpoint schedule (n : nat) (w : list Z) : list Z :=
  match n with
  | O => w
  | S n' =>
      let t := List.length w in
      let g i := nth (t - i) w 0 in
      schedule n'
        (w ++ [add (add (sigma1 (g 2%nat)) (g 7%nat))
                   (add (sigma0 (g 15%nat)) (g 16%nat))])
  end.

Definition state : Type := (Z * Z * Z * Z * Z * Z * Z * Z)%type.

Definition round (st : state) (kw : Z * Z) : state :=
  let '(a, b, c, d, e, f, g, h) := st in
  let t1 := add (add (add h (Sigma1 e)) (add (Ch e f g) (fst kw))) (snd kw) in
  let t2 := add (Sigma0 a) (Maj a b c) in
  (add t1 t2, a, b, c, add d t1, e, f, g).

Definition compress (st : state) (block : list Z) : state :=
  let '(a, b, c, d, e, f, g, h) := st in
  let '(a', b', c', d', e', f', g', h') :=
    fold_left round (combine K (schedule 48 block)) st in
  (add a a', add b b', add c c', add d d',
   add e e', add f f', add g g', add h h').

Definition init : state :=
  (nth 0 H0 0, nth 1 H0 0, nth 2 H0 0, nth 3 H0 0,
   nth 4 H0 0, nth 5 H0 0, nth 6 H0 0, nth 7 H0 0).

Definition digest (msg : list byte) : list byte :=
  let ws := words (pad msg) in
  let '(a, b, c, d, e, f, g, h) :=
    fold_left compress (blocks (List.length ws) ws) init in
  be_fixed 4 a ++ be_fixed 4 b ++ be_fixed 4 c ++ be_fixed 4 d
    ++ be_fixed 4 e ++ be_fixed 4 f ++ be_fixed 4 g ++ be_fixed 4 h.

Definition hex (msg : list byte) : string := hex_encode (digest msg).

End SHA256.

(** *** ASN.1 DER (X.690), the encoding [asn.define(...).encode(_, 'der')]
    produces *)

Module DER.

(** The base-256 digits of [n], least significant first, none for zero. *)
Fixpoint le_bytes (fuel : nat) (n : N) : list byte :=
  match fuel with
  | O => []
  | S f => if (n =? 0)%N then []
           else byte_of_N (n mod 256) :: le_bytes f (n / 256)
  end.

Definition be_bytes (n : N) : list byte :=
  rev (le_bytes (N.to_nat (N.size n)) n).

(** Definite length: one byte below 128, otherwise the count of length
    bytes with the high bit set, then the length itself. *)
Definition der_length (n : nat) : list byte :=
  if (n <? 128)%nat then [byte_of_N (N.of_nat n)]
  else let bs := be_bytes (N.of_nat n) in
       byte_of_N (128 + N.of_nat (List.length bs)) :: bs.

Definition tlv (tag : byte) (content : list byte) : list byte :=
  tag :: der_length (List.length content) ++ content.

(** INTEGER of a natural number: its minimal big-endian bytes, preceded by
    a zero byte when the first would read as a sign bit. *)
Definition int_content (n : N) : list byte :=
  match be_bytes n with
  | [] => [x00]
  | b :: rest => if (128 <=? Byte.to_N b)%N then x00 :: b :: rest
                 else b :: rest
  end.

Definition der_int (n : N) : list byte := tlv x02 (int_content n).
Definition der_octstr (bytes : list byte) : list byte := tlv x04 bytes.
Definition der_seq (items : list (list byte)) : list byte :=
  tlv x30 (List.concat items).

(** **** A DER reader *)





End DER.

(** The schema language of [asn.define]: a sequence of keyed fields, each an
    INTEGER or an OCTET STRING
    ([this.seq().obj(this.key(k).int(), this.key(k').octstr(), ...)]). *)
Inductive asn_type : Type :=
| Asn_int
| Asn_octstr.

Definition asn_schema : Type := list (string * asn_type).


(** Encoding of one field.  A field of the wrong type is reported by the
    encoder as an error; so are, here, the numbers outside the naturals. *)
Definition asn_encode_field (t : asn_type) (v : value) : result (list byte) :=
  match t, v with
  | Asn_int, VNum n =>
      if 0 <=? n then Ok (DER.der_int (Z.to_N n))
      else Throw (new_Error "Unsupported integer")
  | Asn_octstr, VBuf bytes => Ok (DER.der_octstr bytes)
  | _, _ => Throw (new_Error "Unsupported type of the field")
  end.

Fixpoint asn_encode_fields (sc : asn_schema) (data : value)
  : result (list byte) :=
  match sc with
  | [] => Ok []
  | (key, t) :: rest =>
      v <- get_prop data key ;;
      e <- asn_encode_field t v ;;
      r <- asn_encode_fields rest data ;;
      Ok (e ++ r)
  end.

(** [schema.encode(data, 'der')]. *)
Definition asn_encode_der (sc : asn_schema) (data : value)
  : result (list byte) :=
  content <- asn_encode_fields sc data ;;
  Ok (DER.tlv x30 content).




(** ** The environment of the two modules *)

(** What the modules take from outside: the values of the identifiers they
    use without declaring or importing them ([ambient], the global scope),
    the process environment, the runtime's [JSON.parse] and two-argument
    [parseInt], the configuration store and the client factory of
    [fabric-client], and the answers of the ledger network to the methods
    called on its client and channel objects. *)
Record World : Type := {
  ambient : string -> option value;
  process_env : string -> value;
  JSON_parse : string -> result value;
  parseInt_radix : value -> value -> value;
  hfc_getConfigSetting : string -> value;
  hfc_loadFromConfig : value -> result unit;
  host_call : nat -> string -> list value -> result value
}.

(** A free identifier: its value in the global scope, or a
    [ReferenceError]. *)
Definition ident (W : World) (x : string) : result value :=
  match ambient W x with
  | Some v => Ok v
  | None => Throw (ReferenceError (x +++ " is not defined"))
  end.

(** [recv.m(args)] on an object of the network client. *)
Definition call_method (W : World) (recv : value) (m : string)
  (args : list value) : result value :=
  match recv with
  | VUndef | VNull =>
      Throw (TypeError ("Cannot read property '" +++ m +++ "' of "
                        +++ to_string recv))
  | VHandle id => host_call W id m args
  | _ => Throw (TypeError (m +++ " is not a function"))
  end.

(** [recv.m] where [recv] should be the module object of library [lib]. *)
Definition lib_method (recv : value) (lib m : string) : result unit :=
  match recv with
  | VUndef | VNull =>
      Throw (TypeError ("Cannot read property '" +++ m +++ "' of "
                        +++ to_string recv))
  | VHost l => if String.eqb l lib then Ok tt
               else Throw (TypeError (m +++ " is not a function"))
  | _ => Throw (TypeError (m +++ " is not a function"))
  end.

(** The global singletons of [common.js], and the next object identity the
    client factory will hand out. *)
Record Store : Type := {
  CLIENT : value;
  CHANNEL : value;
  fresh : nat
}.

(** [global.CLIENT = null; global.CHANNEL = null]. *)
Definition initial_store : Store :=
  {| CLIENT := VNull; CHANNEL := VNull; fresh := 0 |}.

(** Computations over the store that may throw; what was written before a
    throw stays written. *)
Definition M (A : Type) : Type := Store -> result A * Store.

Definition ret {A} (a : A) : M A := fun s => (Ok a, s).
Definition throw {A} (e : value) : M A := fun s => (Throw e, s).
Definition lift {A} (r : result A) : M A := fun s => (r, s).

Definition mbind {A B} (m : M A) (k : A -> M B) : M B :=
  fun s => match m s with
           | (Ok a, s') => k a s'
           | (Throw e, s') => (Throw e, s')
           end.

Notation "x <~ m ;; k" := (mbind m (fun x => k))
  (at level 61, m at next level, right associativity).

(** [try { body } catch (e) { handler }]. *)
Definition try_catch {A} (body : M A) (handler : value -> M A) : M A :=
  fun s => match body s with
           | (Ok a, s') => (Ok a, s')
           | (Throw e, s') => handler e s'
           end.

Definition rtry {A} (body : result A) (handler : value -> result A)
  : result A :=
  match body with
  | Ok a => Ok a
  | Throw e => handler e
  end.

Definition get_CLIENT : M value := fun s => (Ok (CLIENT s), s).
Definition get_CHANNEL : M value := fun s => (Ok (CHANNEL s), s).
Definition set_CLIENT (v : value) : M unit :=
  fun s => (Ok tt, {| CLIENT := v; CHANNEL := CHANNEL s; fresh := fresh s |}).
Definition set_CHANNEL (v : value) : M unit :=
  fun s => (Ok tt, {| CLIENT := CLIENT s; CHANNEL := v; fresh := fresh s |}).

(** [hfc.loadFromConfig(path)]: a new client object on success. *)
Definition new_client (W : World) (path : value) : M value :=
  fun s => match hfc_loadFromConfig W path with
           | Ok _ => (Ok (VHandle (fresh s)),
                      {| CLIENT := CLIENT s; CHANNEL := CHANNEL s;
                         fresh := S (fresh s) |})
           | Throw e => (Throw e, s)
           end.

(** ** [lib/utils/common.js] *)

(** The check of the user context (lines 46-58).  [util] is not imported by
    this module: it is looked up in the global scope. *)
Definition check_user_context (W : World) (client userName : value)
  : result unit :=
  if truthy userName then
    user <- call_method W client "getUserContext" [userName; VBool true] ;;
    if negb (truthy user) then
      user <- call_method W client "getUserContext" [] ;;
      if negb (truthy user) then
        util <- ident W "util" ;;
        _ <- lib_method util "util" "format" ;;
        Throw (new_Error (util_format "User % was not found :" [userName]))
      else Ok tt
    else Ok tt
  else Ok tt.

Definition getClientForOrg (W : World) (orgName userName isRefresh : value)
  : M value :=
  fun s =>
    if negb (truthy isRefresh) && truthy (CLIENT s) then (Ok (CLIENT s), s)
    else
      (let orgName := js_or orgName (process_env W "ORG_NAME") in
       let userName := js_or userName (process_env W "USER_NAME") in
       client <~ new_client W
                   (hfc_getConfigSetting W "network-connection-profile-path") ;;
       _ <~ lift (call_method W client "loadFromConfig"
                    [hfc_getConfigSetting W
                       (to_string orgName +++ "-connection-profile-path")]) ;;
       _ <~ lift (call_method W client "initCredentialStores" []) ;;
       _ <~ lift (check_user_context W client userName) ;;
       _ <~ set_CLIENT client ;;
       ret client) s.

Definition getChannel (W : World)
  (orgName userName channelName isRefresh : value) : M value :=
  fun s =>
    if negb (truthy isRefresh) && truthy (CHANNEL s) then (Ok (CHANNEL s), s)
    else
      (let orgName := js_or orgName (process_env W "ORG_NAME") in
       let userName := js_or userName (process_env W "USER_NAME") in
       let channelName := js_or channelName (process_env W "CHANNEL_NAME") in
       _ <~ (fun s' =>
               if negb (truthy (CLIENT s')) then
                 (c <~ getClientForOrg W orgName userName VUndef ;;
                  set_CLIENT c) s'
               else (Ok tt, s')) ;;
       client <~ get_CLIENT ;;
       channel <~ lift (call_method W client "getChannel" [channelName]) ;;
       _ <~ set_CHANNEL channel ;;
       ret channel) s.

(** ** The query service *)

Fixpoint get_path (v : value) (keys : list string) : result value :=
  match keys with
  | [] => Ok v
  | k :: rest => x <- get_prop v k ;; get_path x rest
  end.

Fixpoint update (key : string) (v : value) (props : list (string * value))
  : list (string * value) :=
  match props with
  | [] => [(key, v)]
  | (k, x) :: rest =>
      if String.eqb k key then (k, v) :: rest else (k, x) :: update key v rest
  end.

(** [obj.key = v].  In strict mode a primitive cannot take a property.  The
    model keeps no extra properties on arrays, errors, buffers and host
    objects: an assignment to one of them is not recorded (the query service
    assigns to the plain [response] object only). *)
Definition set_prop (obj : value) (key : string) (v : value) : result value :=
  match obj with
  | VObj props => Ok (VObj (update key v props))
  | VUndef | VNull =>
      Throw (TypeError ("Cannot set property '" +++ key +++ "' of "
                        +++ to_string obj))
  | VArr _ | VErr _ _ | VBuf _ | VHandle _ | VHost _ => Ok obj
  | _ => Throw (TypeError ("Cannot create property '" +++ key +++ "' on "
                           +++ to_string obj))
  end.

Definition is_array (v : value) : bool :=
  match v with
  | VArr _ => true
  | _ => false
  end.

(** [v.toString('utf8')]: the text of a buffer; on a number the argument is
    a radix, and this one is out of range. *)
Definition toString_utf8 (v : value) : result value :=
  match v with
  | VUndef | VNull =>
      Throw (TypeError ("Cannot read property 'toString' of " +++ to_string v))
  | VNum _ | VNaN =>
      Throw (VErr "RangeError"
               (Some "toString() radix must be between 2 and 36"))
  | _ => Ok (VStr (to_string v))
  end.

(** Modelled from the spec: [common.createReturn], which the query service
    calls and [common.js] does not define.  It builds the four-field
    QueryResult [{ statusCode, payload, message, detail }]. *)
Definition createReturn (statusCode payload message detail : value) : value :=
  VObj [("statusCode", statusCode); ("payload", payload);
        ("message", message); ("detail", detail)].

(** [JSON.parse(JSON.stringify(err, Object.getOwnPropertyNames(err)))]: the
    own properties of the error, as a plain object. *)
Definition plain_of_error (err : value) : value :=
  match err with
  | VErr name (Some m) => VObj [("stack", VStr (to_string err));
                                ("message", VStr m)]
  | VErr name None => VObj [("stack", VStr (to_string err))]
  | _ => err
  end.

(** The handling of a first endorser entry that is an [Error]
    (lines 61-71).  [convertObj] is declared inside the [try] block, so the
    [catch] block looks it up in the global scope. *)
Definition normalize_error (W : World) (err : value) : result value :=
  let objErr := plain_of_error err in
  rtry
    (message <- get_prop objErr "message" ;;
     convertObj <- JSON_parse W (to_string message) ;;
     status <- get_prop convertObj "status" ;;
     msg <- get_prop convertObj "msg" ;;
     Ok (createReturn status (VStr "") msg msg))
    (fun err =>
       convertObj <- ident W "convertObj" ;;
       status <- get_prop convertObj "status" ;;
       Ok (createReturn status (VStr "") err err)).

(** The handling of a first endorser entry with a response payload
    (lines 73-80). *)
Definition normalize_payload (W : World) (obj : value) : result value :=
  obj <- rtry
           (payload <- get_prop obj "payload" ;;
            text <- toString_utf8 payload ;;
            parsed <- JSON_parse W (to_string text) ;;
            set_prop obj "payload" parsed)
           (fun e =>
              payload <- get_prop obj "payload" ;;
              text <- toString_utf8 payload ;;
              set_prop obj "payload" text) ;;
  status <- get_prop obj "status" ;;
  payload <- get_prop obj "payload" ;;
  Ok (createReturn status payload (VStr "Success") (VStr "Success")).

(** The response normalizer: lines 55-89 of [queryChaincode]. *)
Definition normalize (W : World) (responses : value) : result value :=
  if negb (truthy responses) || negb (is_array responses) then
    Ok (createReturn (VNum 202) (VStr "")
          (VStr "Payload results are missing from the chaincode query")
          (VStr ""))
  else
    first <- get_prop responses "0" ;;
    if truthy first then
      match first with
      | VErr _ _ => normalize_error W first
      | _ =>
          response <- get_prop first "response" ;;
          payload <- (if truthy response then get_prop response "payload"
                      else Ok response) ;;
          if truthy payload then normalize_payload W response
          else
            Ok (createReturn (VNum 202) (VStr "")
                  (VStr "queryByChaincode - unknown or missing results in query")
                  (VStr ""))
      end
    else
      Ok (createReturn (VNum 202) (VStr "") (VStr "response_payloads is null")
            (VStr "")).

Definition channel_not_defined (channelName : value) : string :=
  util_format "Channel %s was not defined in the connection profile"
    [channelName].

(** The [catch] block of [queryChaincode]: the argument of the logger reads
    [error.stack]; the result carries [error.toString()]. *)
Definition query_failure (error : value) : result value :=
  _ <- get_prop error "stack" ;;
  Ok (createReturn (VNum 202) (VStr "") (VStr (to_string error))
        (VStr (to_string error))).

Definition queryChaincode (W : World)
  (peerNames channelName chaincodeName fcn args orgName userName : value)
  : M value :=
  try_catch
    (client <~ getClientForOrg W orgName userName VUndef ;;
     channel <~ getChannel W orgName userName channelName VUndef ;;
     if negb (truthy channel) then
       let message := channel_not_defined channelName in
       ret (createReturn (VNum 202) (VStr "") (VStr message) (VStr message))
     else
       tx_id <~ lift (call_method W client "newTransactionID" []) ;;
       let request := VObj [("targets", peerNames);
                            ("chaincodeId", chaincodeName);
                            ("fcn", fcn);
                            ("args", args);
                            ("chainId", channelName);
                            ("txId", tx_id)] in
       proposalResults <~ lift (call_method W channel
                                  "sendTransactionProposal" [request]) ;;
       responses <~ lift (get_prop proposalResults "0") ;;
       lift (normalize W responses))
    (fun error => lift (query_failure error)).

(** The [catch] block of the ledger-inspection operations. *)
Definition inspect_failure (error : value) : result value :=
  _ <- get_prop error "stack" ;;
  Ok (VStr (to_string error)).

(** The common shape of [getBlockByNumber], [getTransactionByID],
    [getBlockByHash] and [getChannelInfo]: resolve the channel, call one of
    its query methods, return what it answers. *)
Definition inspect (W : World) (orgName userName channelName : value)
  (method : string) (args : result (list value)) : M value :=
  try_catch
    (channel <~ getChannel W orgName userName channelName VUndef ;;
     if negb (truthy channel) then
       throw (new_Error (channel_not_defined channelName))
     else
       args <~ lift args ;;
       response_payload <~ lift (call_method W channel method args) ;;
       if truthy response_payload then ret response_payload
       else ret (VStr "response_payload is null"))
    (fun error => lift (inspect_failure error)).

Definition getBlockByNumber (W : World)
  (peerName channelName blockNumber orgName userName : value) : M value :=
  inspect W orgName userName channelName "queryBlock"
    (Ok [parseInt_radix W blockNumber peerName]).

Definition getTransactionByID (W : World)
  (peerName channelName trxnID orgName userName : value) : M value :=
  inspect W orgName userName channelName "queryTransaction"
    (Ok [trxnID; peerName]).

Definition getBlockByHash (W : World)
  (peerName channelName hash orgName userName : value) : M value :=
  inspect W orgName userName channelName "queryBlockByHash"
    (buf <- Buffer_from_hex hash ;; Ok [buf; peerName]).

Definition getChannelInfo (W : World)
  (peerName channelName orgName userName : value) : M value :=
  inspect W orgName userName channelName "queryInfo" (Ok [peerName]).

(** *** The chaincode and channel inventories *)

(** [type === 'installed']: strict equality with a string. *)
Definition strict_eq_string (v : value) (s : string) : bool :=
  match v with
  | VStr x => String.eqb x s
  | _ => false
  end.

(** The indices [for (let i = 0; i < length; i++)] runs through. *)
Definition loop_indices (length : value) : list nat :=
  match to_number length with
  | VNum n => seq 0 (Z.to_nat n)
  | _ => []
  end.

(** The loop body run on each index in turn, up to the first throw. *)
Fixpoint for_indices {A} (body : nat -> result A) (indices : list nat)
  : result (list A) :=
  match indices with
  | [] => Ok []
  | i :: rest =>
      x <- body i ;;
      xs <- for_indices body rest ;;
      Ok (x :: xs)
  end.

(** [items[i]] for a loop index. *)
Definition at_index (items : value) (i : nat) : result value :=
  get_prop items (string_of_Z (Z.of_nat i)).

(** ['name: ' + cc.name + ', version: ' + cc.version + ', path: ' + cc.path]. *)
Definition chaincode_descriptor (cc : value) : result string :=
  name <- get_prop cc "name" ;;
  version <- get_prop cc "version" ;;
  path <- get_prop cc "path" ;;
  Ok ("name: " +++ to_string name +++ ", version: " +++ to_string version
      +++ ", path: " +++ to_string path).

(** The loop of [getInstalledChaincodes] (lines 250-259): the descriptors
    of [response.chaincodes]. *)
Definition chaincode_details (response : value) : result value :=
  chaincodes <- get_prop response "chaincodes" ;;
  length <- get_prop chaincodes "length" ;;
  details <- for_indices
               (fun i => cc <- at_index chaincodes i ;; chaincode_descriptor cc)
               (loop_indices length) ;;
  Ok (VArr (map VStr details)).

(** [getInstalledChaincodes(peerName, channelName, type, orgName)].
    [userName] is not a parameter: it is looked up in the global scope. *)
Definition getInstalledChaincodes (W : World)
  (peerName channelName type orgName : value) : M value :=
  try_catch
    (userName <~ lift (ident W "userName") ;;
     client <~ getClientForOrg W orgName userName VUndef ;;
     response <~
       (if strict_eq_string type "installed" then
          lift (call_method W client "queryInstalledChaincodes"
                  [peerName; VBool true])
        else
          userName <~ lift (ident W "userName") ;;
          channel <~ getChannel W orgName userName channelName VUndef ;;
          if negb (truthy channel) then
            throw (new_Error (channel_not_defined channelName))
          else
            lift (call_method W channel "queryInstantiatedChaincodes"
                    [peerName; VBool true])) ;;
     if truthy response then lift (chaincode_details response)
     else ret (VStr "response is null"))
    (fun error => lift (inspect_failure error)).

(** The loop of [getChannels] (lines 284-287): the names it logs. *)
Definition channel_names (response : value) : result (list string) :=
  channels <- get_prop response "channels" ;;
  length <- get_prop channels "length" ;;
  for_indices
    (fun i => channel <- at_index channels i ;;
              channel_id <- get_prop channel "channel_id" ;;
              Ok ("channel id: " +++ to_string channel_id))
    (loop_indices length).

(** [getChannels(peerName, orgName)].  [userName] is looked up in the global
    scope. *)
Definition getChannels (W : World) (peerName orgName : value) : M value :=
  try_catch
    (userName <~ lift (ident W "userName") ;;
     client <~ getClientForOrg W orgName userName VUndef ;;
     response <~ lift (call_method W client "queryChannels" [peerName]) ;;
     if truthy response then
       _ <~ lift (channel_names response) ;;
       ret response
     else ret (VStr "response_payloads is null"))
    (fun error => lift (inspect_failure error)).

(** *** The block decoder *)

(** The schema [_generateBlockHash] defines. *)
Definition headerAsn : asn_schema :=
  [("Number", Asn_int); ("PreviousHash", Asn_octstr); ("DataHash", Asn_octstr)].

(** [sha.sha256(message)]: the digest in lower-case hexadecimal. *)
Definition sha_sha256 (message : value) : result value :=
  match message with
  | VBuf bytes => Ok (VStr (SHA256.hex bytes))
  | VStr s => Ok (VStr (SHA256.hex (list_byte_of_string s)))
  | _ => Throw (new_Error "input is invalid type")
  end.

(** The encoding step of [_generateBlockHash] (lines 312-318): the object
    literal built from the header, encoded with the schema. *)
Definition header_der (header : value) : result (list byte) :=
  number <- get_prop header "number" ;;
  previous_hash <- get_prop header "previous_hash" ;;
  PreviousHash <- Buffer_from_hex previous_hash ;;
  data_hash <- get_prop header "data_hash" ;;
  DataHash <- Buffer_from_hex data_hash ;;
  asn_encode_der headerAsn
    (VObj [("Number", parseInt number);
           ("PreviousHash", PreviousHash);
           ("DataHash", DataHash)]).

(** [_generateBlockHash(header)].  The module imports neither [asn] nor
    [sha]: both are looked up in the global scope, where they have to be the
    module objects of asn1.js and js-sha256. *)
Definition _generateBlockHash (W : World) (header : value) : result value :=
  asn <- ident W "asn" ;;
  _ <- lib_method asn "asn1.js" "define" ;;
  output <- header_der header ;;
  sha <- ident W "sha" ;;
  _ <- lib_method sha "js-sha256" "sha256" ;;
  sha_sha256 (VBuf output).

(** The body of the [forEach] callback (lines 352-361): the record of one
    transaction entry. *)
Definition crawl_tx (d : value) : result value :=
  timestamp <- get_path d ["payload"; "header"; "channel_header"; "timestamp"] ;;
  channel_id <- get_path d ["payload"; "header"; "channel_header"; "channel_id"] ;;
  tx_id <- get_path d ["payload"; "header"; "channel_header"; "tx_id"] ;;
  tx_type <- get_path d ["payload"; "header"; "channel_header"; "typeString"] ;;
  action <- get_path d ["payload"; "data"; "actions"; "0"] ;;
  ns_rwset <- (if truthy action then
                 get_path d ["payload"; "data"; "actions"; "0"; "payload";
                             "action"; "proposal_response_payload";
                             "extension"; "results"; "ns_rwset"]
               else Ok (VArr [])) ;;
  Ok (VObj [("timestamp", timestamp); ("channel_id", channel_id);
            ("tx_id", tx_id); ("tx_type", tx_type); ("ns_rwset", ns_rwset)]).

(** [items.forEach(d => data.push(f(d)))], up to the first entry on which
    the callback throws. *)
Fixpoint for_each (f : value -> result value) (items : list value)
  : result (list value) :=
  match items with
  | [] => Ok []
  | d :: rest =>
      tx <- f d ;;
      data <- for_each f rest ;;
      Ok (tx :: data)
  end.

(** Lines 338-373 of [crawlBlock]: from the raw block to the crawled one. *)
Definition crawl_result (W : World) (blockResult : value) : result value :=
  if truthy blockResult then
    txs <- get_path blockResult ["data"; "data"] ;;
    if negb (truthy txs) then Ok VNull
    else
      metadata <- get_path blockResult ["metadata"; "metadata"] ;;
      length <- get_prop metadata "length" ;;
      tx_code <- get_prop metadata (to_string (js_pred length)) ;;
      raw_header <- get_prop blockResult "header" ;;
      block_hash <- _generateBlockHash W raw_header ;;
      number <- get_prop raw_header "number" ;;
      previous_hash <- get_prop raw_header "previous_hash" ;;
      data_hash <- get_prop raw_header "data_hash" ;;
      let header := VObj [("number", number);
                          ("previous_hash", previous_hash);
                          ("data_hash", data_hash);
                          ("block_hash", block_hash)] in
      data <- match txs with
              | VArr items => for_each crawl_tx items
              | _ => Throw (TypeError
                       "blockResult.data.data.forEach is not a function")
              end ;;
      Ok (VObj [("header", header); ("data", VArr data);
                ("tx_code", tx_code)])
  else Ok VNull.

(** [option == 'byNumber']: loose equality with a string that is no
    numeral. *)
Definition loose_eq_string (v : value) (s : string) : bool :=
  match v with
  | VStr _ | VArr _ | VObj _ | VErr _ _ | VBuf _ | VHandle _ | VHost _ =>
      String.eqb (to_string v) s
  | _ => false
  end.

(** The [catch] block of [crawlBlock] (lines 374-377).  It binds [err] and
    then reads [error], an identifier of the global scope. *)
Definition crawl_failure (W : World) (err : value) : result value :=
  error <- ident W "error" ;;
  _ <- get_prop error "stack" ;;
  Ok (VStr (to_string error)).

(** The query that fetches the raw block (lines 332-337). *)
Definition fetch_block (W : World) (channel blockNumberOrHash option : value)
  : result value :=
  if loose_eq_string option "byNumber" then
    call_method W channel "queryBlock" [blockNumberOrHash]
  else
    buf <- Buffer_from_hex blockNumberOrHash ;;
    call_method W channel "queryBlockByHash" [buf].

(** The [try] block of [crawlBlock].  [orgName], [userName] and
    [channelName] are neither parameters nor declared in the module: they
    are looked up in the global scope. *)
Definition crawl_body (W : World) (blockNumberOrHash option : value)
  : M value :=
  orgName <~ lift (ident W "orgName") ;;
  userName <~ lift (ident W "userName") ;;
  channelName <~ lift (ident W "channelName") ;;
  channel <~ getChannel W orgName userName channelName VUndef ;;
  blockResult <~ lift (fetch_block W channel blockNumberOrHash option) ;;
  lift (crawl_result W blockResult).

(** [crawlBlock(blockNumberOrHash, option)]. *)
Definition crawlBlock (W : World) (blockNumberOrHash option : value)
  : M value :=
  try_catch (crawl_body W blockNumberOrHash option)
    (fun err => lift (crawl_failure W err)).

(** ** A concrete environment

    A network with one channel, [mychannel], one enrolled user, [admin], and
    the three libraries present in the global scope.  The answers of the
    network that the scenarios vary are parameters: the default user context,
    the endorsers' responses and the block the ledger returns. *)

Definition dq : string := String (ascii_of_nat 34) "".

Definition demo_json : string :=
  "{" +++ dq +++ "status" +++ dq +++ ":500," +++ dq +++ "msg" +++ dq +++ ":"
      +++ dq +++ "not found" +++ dq +++ "}".

Definition demo_json_200 : string :=
  "{" +++ dq +++ "status" +++ dq +++ ":200," +++ dq +++ "msg" +++ dq +++ ":"
      +++ dq +++ "odd" +++ dq +++ "}".

Definition demo_balance : string :=
  "{" +++ dq +++ "balance" +++ dq +++ ":100}".

Definition demo_ambient (x : string) : option value :=
  if String.eqb x "orgName" then Some (VStr "Org1")
  else if String.eqb x "userName" then Some (VStr "admin")
  else if String.eqb x "channelName" then Some (VStr "mychannel")
  else if String.eqb x "asn" then Some (VHost "asn1.js")
  else if String.eqb x "sha" then Some (VHost "js-sha256")
  else if String.eqb x "util" then Some (VHost "util")
  else None.

Definition demo_JSON_parse (s : string) : result value :=
  if String.eqb s demo_json then
    Ok (VObj [("status", VNum 500); ("msg", VStr "not found")])
  else if String.eqb s demo_json_200 then
    Ok (VObj [("status", VNum 200); ("msg", VStr "odd")])
  else if String.eqb s demo_balance then Ok (VObj [("balance", VNum 100)])
  else Throw (SyntaxError "Unexpected token in JSON at position 0").

Definition demo_host_call (default_user responses block : value)
  (id : nat) (m : string) (args : list value) : result value :=
  if String.eqb m "getUserContext" then
    match args with
    | [] => Ok default_user
    | VStr "admin" :: _ => Ok (VObj [("name", VStr "admin")])
    | _ => Ok VNull
    end
  else if String.eqb m "getChannel" then
    match args with
    | [VStr "mychannel"] => Ok (VHandle 100)
    | _ => Ok VUndef
    end
  else if String.eqb m "newTransactionID" then
    Ok (VObj [("_transaction_id", VStr "tx1")])
  else if String.eqb m "sendTransactionProposal" then
    Ok (VArr [responses; VObj []])
  else if String.eqb m "queryBlock" then
    match block with
    | VErr _ _ => Throw block
    | _ => Ok block
    end
  else Ok VUndef.

Definition demo_world (default_user responses block : value) : World :=
  {| ambient := demo_ambient;
     process_env := fun _ => VUndef;
     JSON_parse := demo_JSON_parse;
     parseInt_radix := fun v _ => parseInt v;
     hfc_getConfigSetting := fun key => VStr ("/etc/akc/" +++ key +++ ".yaml");
     hfc_loadFromConfig := fun _ => Ok tt;
     host_call := demo_host_call default_user responses block |}.

Definition demo_tx (tx_id : string) (actions : list value) : value :=
  VObj [("payload",
         VObj [("header",
                VObj [("channel_header",
                       VObj [("timestamp", VStr "2020-01-01T00:00:00Z");
                             ("channel_id", VStr "mychannel");
                             ("tx_id", VStr tx_id);
                             ("typeString", VStr "ENDORSER_TRANSACTION")])]);
               ("data", VObj [("actions", VArr actions)])])].

Definition demo_action (rwset : value) : value :=
  VObj [("payload",
    VObj [("action",
      VObj [("proposal_response_payload",
        VObj [("extension",
          VObj [("results", VObj [("ns_rwset", rwset)])])])])])].

Definition demo_block (entries : list value) : value :=
  VObj [("header", VObj [("number", VStr "5");
                         ("previous_hash", VStr "aa01");
                         ("data_hash", VStr "bb02")]);
        ("data", VObj [("data", VArr entries)]);
        ("metadata", VObj [("metadata", VArr [VStr "sig"; VArr [VNum 0; VNum 0]])])].

(** The store after a first query on [mychannel]. *)
Definition demo_cached : Store :=
  {| CLIENT := VHandle 0; CHANNEL := VHandle 100; fresh := 1 |}.

(** Endorser responses: a payload with status 201. *)
Definition demo_payload_201 : value :=
  VArr [VObj [("response",
               VObj [("status", VNum 201);
                     ("payload", VBuf (list_byte_of_string "plain"))])]].

Definition demo_query (responses : value) : result value * Store :=
  queryChaincode (demo_world VNull responses VNull) (VArr [])
    (VStr "mychannel") (VStr "mycc") (VStr "query") (VArr [VStr "a"])
    (VStr "Org1") (VStr "admin") initial_store.

(** A raw block without a header, and the entries of a block with two
    transactions, the second without action. *)
Definition demo_headless_block : value :=
  VObj [("data", VObj [("data", VArr [])]);
        ("metadata", VObj [("metadata", VArr [])])].

Definition demo_entries : list value :=
  [demo_tx "t1" [demo_action (VArr [VStr "rw"])]; demo_tx "t2" []].

(** * The vocabulary of the properties *)

Definition succeeds {A} (r : result A) : Prop := exists a, r = Ok a.

(** The cached client is absent or an object the factory has already handed
    out. *)
Definition store_wf (s : Store) : Prop :=
  match CLIENT s with
  | VNull => True
  | VHandle c => (c < fresh s)%nat
  | _ => False
  end.

(** The steps of [getClientForOrg] that build a client all go through. *)
Definition build_succeeds (W : World) (orgName userName : value) (s : Store)
  : Prop :=
  let client := VHandle (fresh s) in
  hfc_loadFromConfig W
    (hfc_getConfigSetting W "network-connection-profile-path") = Ok tt
  /\ succeeds (call_method W client "loadFromConfig"
                 [hfc_getConfigSetting W
                    (to_string (js_or orgName (process_env W "ORG_NAME"))
                     +++ "-connection-profile-path")])
  /\ succeeds (call_method W client "initCredentialStores" [])
  /\ check_user_context W client
       (js_or userName (process_env W "USER_NAME")) = Ok tt.

Definition with_client (s : Store) : Store :=
  {| CLIENT := VHandle (fresh s); CHANNEL := CHANNEL s;
     fresh := S (fresh s) |}.

Definition is_QueryResult (v : value) : Prop :=
  exists statusCode payload message detail,
    v = createReturn statusCode payload message detail.

(** The decoding of a response payload: its text, parsed as JSON when it
    parses, kept as text otherwise. *)
Definition decoded (W : World) (raw p : value) : Prop :=
  exists text,
    toString_utf8 raw = Ok (VStr text)
    /\ (JSON_parse W text = Ok p
        \/ (exists e, JSON_parse W text = Throw e) /\ p = VStr text).

(** What the normalizer makes of the endorsers' responses. *)
Inductive normalized (W : World) (responses : value) : value -> Prop :=
| normalized_failure (message detail : value) :
    normalized W responses
      (createReturn (VNum 202) (VStr "") message detail)
| normalized_error (name : string) (text : option string)
    (status message detail : value) :
    get_prop responses "0" = Ok (VErr name text) ->
    normalized W responses (createReturn status (VStr "") message detail)
| normalized_payload (first response status raw p : value) :
    get_prop responses "0" = Ok first ->
    get_prop first "response" = Ok response ->
    get_prop response "status" = Ok status ->
    get_prop response "payload" = Ok raw ->
    truthy raw = true ->
    decoded W raw p ->
    normalized W responses
      (createReturn status p (VStr "Success") (VStr "Success")).

(** The responses some channel of the network gave to a proposal. *)
Definition endorsers_answer (W : World) (responses : value) : Prop :=
  exists channel request proposalResults,
    call_method W channel "sendTransactionProposal" [request]
    = Ok proposalResults
    /\ get_prop proposalResults "0" = Ok responses.

(** What [queryChaincode] returns: a failure with the code 202, or what the
    normalizer makes of the endorsers' responses. *)
Inductive query_result (W : World) : value -> Prop :=
| query_result_failure (message detail : value) :
    query_result W (createReturn (VNum 202) (VStr "") message detail)
| query_result_normalized (responses r : value) :
    endorsers_answer W responses ->
    normalized W responses r ->
    query_result W r.

(** The invariant of the design document, on the accessors of a
    QueryResult: the code is 200 exactly on success, and any other code
    comes with an empty payload. *)
Definition status_200_iff_success (r : value) : Prop :=
  (get_prop r "statusCode" = Ok (VNum 200)
   <-> get_prop r "message" = Ok (VStr "Success"))
  /\ (get_prop r "statusCode" <> Ok (VNum 200) ->
      get_prop r "payload" = Ok (VStr "")).

Definition is_error (e : value) : Prop :=
  exists name message, e = VErr name message.

(** What [JSON.parse] throws is an [Error] object (a [SyntaxError]). *)
Definition JSON_throws_errors (W : World) : Prop :=
  forall text e, JSON_parse W text = Throw e -> is_error e.

Definition nullish (v : value) : bool :=
  match v with
  | VUndef | VNull => true
  | _ => false
  end.





(** The byte string the design document prescribes for a header: the DER
    sequence of the number, the previous hash and the data hash, in this
    order. *)
Definition header_encoding (n : Z) (previous_hash data_hash : list byte)
  : list byte :=
  DER.der_seq [DER.der_int (Z.to_N n); DER.der_octstr previous_hash;
               DER.der_octstr data_hash].

Definition libraries_present (W : World) : Prop :=
  ambient W "asn" = Some (VHost "asn1.js")
  /\ ambient W "sha" = Some (VHost "js-sha256").

(** A header [_generateBlockHash] can read: a number that [parseInt] reads
    as the natural number [n], and two hashes in hexadecimal. *)
Definition header_fields (h : value) (n : Z) (ph dh : string) : Prop :=
  exists number,
    get_prop h "number" = Ok number
    /\ parseInt number = VNum n
    /\ 0 <= n
    /\ get_prop h "previous_hash" = Ok (VStr ph)
    /\ get_prop h "data_hash" = Ok (VStr dh).


(** The header of a raw block, as the ledger client decodes it: the number
    in decimal, the two hashes in hexadecimal. *)
Definition raw_header (number : value) (previous_hash data_hash : list byte)
  : value :=
  VObj [("number", number);
        ("previous_hash", VStr (hex_encode previous_hash));
        ("data_hash", VStr (hex_encode data_hash))].

(** ** The vocabulary of the further properties *)

(** A computation keeps the store well formed. *)
Definition preserves_wf {A} (m : M A) : Prop :=
  forall s r s', store_wf s -> m s = (r, s') -> store_wf s'.

(** What a computation throws is an [Error] object. *)
Definition throws_errors {A} (m : M A) : Prop :=
  forall s e s', m s = (Throw e, s') -> is_error e.

Definition rthrows_errors {A} (r : result A) : Prop :=
  forall e, r = Throw e -> is_error e.

(** The ledger network client fails with [Error] objects only. *)
Definition network_throws_errors (W : World) : Prop :=
  (forall id m args e, host_call W id m args = Throw e -> is_error e)
  /\ (forall path e, hfc_loadFromConfig W path = Throw e -> is_error e).

(** Every value a computation returns is a QueryResult. *)
Definition returns_QueryResult (m : M value) : Prop :=
  forall s r s', m s = (Ok r, s') -> is_QueryResult r.

(** What an inspection operation may return: a string (a failure, or the
    notice of an empty answer), or the truthy answer of the network to the
    query [method]. *)
Definition inspection_outcome (W : World) (method : string) (v : value)
  : Prop :=
  (exists text, v = VStr text)
  \/ (exists channel args,
        call_method W channel method args = Ok v /\ truthy v = true).

(** The value of a property, [undefined] when the read throws. *)
Definition field (v : value) (key : string) : value :=
  match get_prop v key with
  | Ok x => x
  | Throw _ => VUndef
  end.

(** The descriptor of a chaincode entry. *)
Definition descriptor_of (cc : value) : string :=
  "name: " +++ to_string (field cc "name") +++ ", version: "
  +++ to_string (field cc "version") +++ ", path: "
  +++ to_string (field cc "path").

(** The environment of the modules as they are written: a global scope
    with none of the identifiers they leave undeclared. *)
Definition bare_world : World :=
  {| ambient := fun _ => None;
     process_env := fun _ => VUndef;
     JSON_parse := demo_JSON_parse;
     parseInt_radix := fun v _ => parseInt v;
     hfc_getConfigSetting := fun key => VStr key;
     hfc_loadFromConfig := fun _ => Ok tt;
     host_call := demo_host_call VNull VNull VNull |}.

(** A network whose channel rejects [queryInfo] with no reason, and whose
    client answers the inventory queries with [response]. *)
Definition inventory_host_call (response : value)
  (id : nat) (m : string) (args : list value) : result value :=
  if String.eqb m "queryInfo" then Throw VUndef
  else if String.eqb m "queryInstalledChaincodes" then Ok response
  else if String.eqb m "queryInstantiatedChaincodes" then Ok response
  else if String.eqb m "queryChannels" then Ok response
  else demo_host_call VNull VNull VNull id m args.

Definition inventory_world (response : value) : World :=
  {| ambient := demo_ambient;
     process_env := fun _ => VUndef;
     JSON_parse := demo_JSON_parse;
     parseInt_radix := fun v _ => parseInt v;
     hfc_getConfigSetting := fun key => VStr key;
     hfc_loadFromConfig := fun _ => Ok tt;
     host_call := inventory_host_call response |}.

Definition demo_chaincodes : value :=
  VObj [("chaincodes",
         VArr [VObj [("name", VStr "mycc"); ("version", VStr "1.0");
                     ("path", VStr "github.com/mycc")];
               VObj [("name", VStr "other"); ("version", VNum 2)]])].

Definition demo_channels : value :=
  VObj [("channels", VArr [VObj [("channel_id", VStr "mychannel")]])].

(** The callback run on each element in turn, up to the first throw. *)
Fixpoint collect {A} (f : value -> result A) (items : list value)
  : result (list A) :=
  match items with
  | [] => Ok []
  | x :: rest => y <- f x ;; ys <- collect f rest ;; Ok (y :: ys)
  end.

(** The query of [getInstalledChaincodes]: with the type ['installed'] the
    client is asked and the store stays [s1]; with any other type the
    channel is resolved, which leaves the store [s2], and asked. *)
Definition inventory_query (W : World)
  (peerName channelName type orgName userName client response : value)
  (s1 s2 : Store) : Prop :=
  if strict_eq_string type "installed" then
    call_method W client "queryInstalledChaincodes" [peerName; VBool true]
    = Ok response
    /\ s2 = s1
  else
    exists channel,
      getChannel W orgName userName channelName VUndef s1 = (Ok channel, s2)
      /\ truthy channel = true
      /\ call_method W channel "queryInstantiatedChaincodes"
           [peerName; VBool true] = Ok response.

(** A configuration transaction: its data has a [config], no [actions]. *)
Definition demo_config_tx : value :=
  VObj [("payload",
         VObj [("header",
                VObj [("channel_header",
                       VObj [("tx_id", VStr "c0");
                             ("typeString", VStr "CONFIG")])]);
               ("data", VObj [("config", VObj [])])])].

(** * Properties *)



Lemma channel_not_defined_message (channelName : value) :
  channel_not_defined channelName
  = "Channel " +++ to_string channelName
      +++ " was not defined in the connection profile".
Proof. reflexivity. Qed.

(** ** The session cache *)

Lemma store_wf_initial : store_wf initial_store.
Proof. exact I. Qed.

Lemma getClientForOrg_cached (W : World) (orgName userName isRefresh : value)
  (s : Store) :
  truthy isRefresh = false -> truthy (CLIENT s) = true ->
  getClientForOrg W orgName userName isRefresh s = (Ok (CLIENT s), s).
Proof.
  intros Hr Hc. unfold getClientForOrg. rewrite Hr, Hc. reflexivity.
Qed.

Lemma getClientForOrg_builds (W : World) (orgName userName isRefresh : value)
  (s : Store) :
  negb (truthy isRefresh) && truthy (CLIENT s) = false ->
  build_succeeds W orgName userName s ->
  getClientForOrg W orgName userName isRefresh s
  = (Ok (VHandle (fresh s)), with_client s).
Proof.
  intros Hmiss (Hload & [v1 Hcfg] & [v2 Hinit] & Huser).
  unfold getClientForOrg. rewrite Hmiss.
  unfold mbind, new_client, lift, set_CLIENT, ret. rewrite Hload. cbn.
  cbn in Hcfg, Hinit, Huser. rewrite Hcfg, Hinit, Huser. reflexivity.
Qed.

(** A client that [getClientForOrg] returns is the one it leaves in the
    cache, and the cache stays well formed. *)
Lemma getClientForOrg_result (W : World) (orgName userName isRefresh : value)
  (s s' : Store) (client : value) :
  store_wf s ->
  getClientForOrg W orgName userName isRefresh s = (Ok client, s') ->
  CLIENT s' = client /\ CHANNEL s' = CHANNEL s /\ truthy client = true
  /\ store_wf s'.
Proof.
  intros Hwf. unfold getClientForOrg.
  destruct (negb (truthy isRefresh) && truthy (CLIENT s)) eqn:Hhit.
  - intros H. inversion H; subst. apply andb_prop in Hhit. tauto.
  - unfold mbind, new_client, lift, set_CLIENT, ret.
    destruct (hfc_loadFromConfig W _); [cbn | discriminate].
    destruct (host_call W (fresh s) "loadFromConfig" _); [| discriminate].
    destruct (host_call W (fresh s) "initCredentialStores" _); [| discriminate].
    destruct (check_user_context W _ _); [| discriminate].
    intros H. inversion H; subst. cbn. unfold store_wf. cbn. auto.
Qed.

(** Whatever [getClientForOrg] does, a well-formed store stays so. *)
Lemma getClientForOrg_wf (W : World) (orgName userName isRefresh : value)
  (s s' : Store) (r : result value) :
  store_wf s ->
  getClientForOrg W orgName userName isRefresh s = (r, s') ->
  store_wf s'.
Proof.
  intros Hwf. unfold getClientForOrg.
  destruct (negb (truthy isRefresh) && truthy (CLIENT s)).
  - intros H. inversion H; subst. exact Hwf.
  - unfold mbind, new_client, lift, set_CLIENT, ret.
    assert (Hup : store_wf {| CLIENT := CLIENT s; CHANNEL := CHANNEL s;
                              fresh := S (fresh s) |}).
    { unfold store_wf in *. cbn. destruct (CLIENT s); auto. }
    destruct (hfc_loadFromConfig W _); cbn.
    + destruct (host_call W (fresh s) "loadFromConfig" _);
        [| intros H; inversion H; subst; exact Hup].
      destruct (host_call W (fresh s) "initCredentialStores" _);
        [| intros H; inversion H; subst; exact Hup].
      destruct (check_user_context W _ _);
        intros H; inversion H; subst; [| exact Hup].
      unfold store_wf. cbn. auto.
    + intros H. inversion H; subst. exact Hwf.
Qed.

(** C7. Two calls of [getClientForOrg] without refresh on a cached client
    both return that client and build nothing (the store, the object counter
    included, is unchanged); a call with refresh, when the build goes
    through, returns a new client, different from the cached one, and leaves
    it in the cache. *)
Theorem getClientForOrg_reuse_and_refresh
  (W : World) (orgName userName : value) (s : Store) :
  store_wf s ->
  truthy (CLIENT s) = true ->
  build_succeeds W orgName userName s ->
  (let (r1, s1) := getClientForOrg W orgName userName (VBool false) s in
   let (r2, s2) := getClientForOrg W orgName userName (VBool false) s1 in
   r1 = Ok (CLIENT s) /\ r2 = Ok (CLIENT s) /\ s1 = s /\ s2 = s)
  /\ (let (r, s') := getClientForOrg W orgName userName (VBool true) s in
      exists client, r = Ok client /\ client <> CLIENT s
                     /\ CLIENT s' = client /\ client = VHandle (fresh s)).
Proof.
  intros Hwf Hc Hbuild. split.
  - rewrite (getClientForOrg_cached W orgName userName (VBool false) s eq_refl Hc).
    rewrite (getClientForOrg_cached W orgName userName (VBool false) s eq_refl Hc).
    auto.
  - rewrite (getClientForOrg_builds W orgName userName (VBool true) s eq_refl Hbuild).
    exists (VHandle (fresh s)). repeat split.
    unfold store_wf in Hwf. intros Heq. rewrite <- Heq in Hwf. lia.
Qed.

Lemma demo_build_succeeds (default_user responses block : value)
  (orgName : value) (s : Store) :
  build_succeeds (demo_world default_user responses block) orgName
    (VStr "admin") s.
Proof.
  unfold build_succeeds, succeeds. cbn. repeat split; eexists; reflexivity.
Qed.

Lemma getClientForOrg_reuse_and_refresh_witness :
  let W := demo_world VNull VNull VNull in
  store_wf demo_cached
  /\ truthy (CLIENT demo_cached) = true
  /\ (let (r1, s1) := getClientForOrg W (VStr "Org1") (VStr "admin")
                        (VBool false) demo_cached in
      let (r2, s2) := getClientForOrg W (VStr "Org1") (VStr "admin")
                        (VBool false) s1 in
      r1 = Ok (CLIENT demo_cached) /\ r2 = Ok (CLIENT demo_cached)
      /\ s1 = demo_cached /\ s2 = demo_cached)
  /\ (let (r, s') := getClientForOrg W (VStr "Org1") (VStr "admin")
                       (VBool true) demo_cached in
      exists client, r = Ok client /\ client <> CLIENT demo_cached
                     /\ CLIENT s' = client
                     /\ client = VHandle (fresh demo_cached)).
Proof.
  intros W.
  assert (Hwf : store_wf demo_cached) by (unfold store_wf; cbn; lia).
  split; [exact Hwf |]. split; [reflexivity |].
  exact (getClientForOrg_reuse_and_refresh W (VStr "Org1") (VStr "admin")
           demo_cached Hwf eq_refl
           (demo_build_succeeds VNull VNull VNull (VStr "Org1") demo_cached)).
Defined.

(** The first call on an empty cache builds the client that later calls
    reuse. *)
Example getClientForOrg_first_call :
  getClientForOrg (demo_world VNull VNull VNull) (VStr "Org1") (VStr "admin")
    VUndef initial_store
  = (Ok (VHandle 0), {| CLIENT := VHandle 0; CHANNEL := VNull; fresh := 1 |}).
Proof. reflexivity. Qed.

Lemma getChannel_cached (W : World)
  (orgName userName channelName isRefresh : value) (s : Store) :
  truthy isRefresh = false -> truthy (CHANNEL s) = true ->
  getChannel W orgName userName channelName isRefresh s = (Ok (CHANNEL s), s).
Proof.
  intros Hr Hc. unfold getChannel. rewrite Hr, Hc. reflexivity.
Qed.

(** A channel that [getChannel] returns is the one it leaves in the cache. *)
Lemma getChannel_result (W : World)
  (orgName userName channelName isRefresh : value) (s s' : Store)
  (channel : value) :
  getChannel W orgName userName channelName isRefresh s = (Ok channel, s') ->
  CHANNEL s' = channel.
Proof.
  unfold getChannel.
  destruct (negb (truthy isRefresh) && truthy (CHANNEL s)).
  - intros H. inversion H; subst. reflexivity.
  - unfold mbind at 1.
    match goal with
    | |- context [if ?c then _ else _] => destruct c
    end.
    + unfold mbind at 1.
      destruct (getClientForOrg W _ _ VUndef s) as [[c | e] s1];
        [| discriminate].
      unfold set_CLIENT, mbind, get_CLIENT, lift, set_CHANNEL, ret. cbn.
      destruct (call_method W c "getChannel" _); [| discriminate].
      intros H. inversion H; subst. reflexivity.
    + unfold set_CLIENT, mbind, get_CLIENT, lift, set_CHANNEL, ret. cbn.
      destruct (call_method W (CLIENT s) "getChannel" _); [| discriminate].
      intros H. inversion H; subst. reflexivity.
Qed.

(** Whatever [getChannel] does, a well-formed store stays so. *)
Lemma getChannel_wf (W : World)
  (orgName userName channelName isRefresh : value) (s s' : Store)
  (r : result value) :
  store_wf s ->
  getChannel W orgName userName channelName isRefresh s = (r, s') ->
  store_wf s'.
Proof.
  intros Hwf. unfold getChannel.
  destruct (negb (truthy isRefresh) && truthy (CHANNEL s)).
  - intros H. inversion H; subst. exact Hwf.
  - unfold mbind at 1.
    destruct (negb (truthy (CLIENT s))).
    + unfold mbind at 1.
      destruct (getClientForOrg W _ _ VUndef s) as [[c | e] s1] eqn:Hclient.
      * destruct (getClientForOrg_result W _ _ _ _ _ _ Hwf Hclient)
          as (Hc & _ & _ & Hwf1).
        unfold set_CLIENT, mbind, get_CLIENT, lift, set_CHANNEL, ret. cbn.
        assert (Hkeep : forall ch, store_wf {| CLIENT := c; CHANNEL := ch;
                                                fresh := fresh s1 |}).
        { intros ch. unfold store_wf in *. cbn. rewrite Hc in Hwf1.
          exact Hwf1. }
        destruct (call_method W c "getChannel" _);
          intros H; inversion H; subst; apply Hkeep.
      * intros H. inversion H; subst.
        eapply getClientForOrg_wf; eassumption.
    + unfold set_CLIENT, mbind, get_CLIENT, lift, set_CHANNEL, ret. cbn.
      destruct (call_method W (CLIENT s) "getChannel" _);
        intros H; inversion H; subst; exact Hwf.
Qed.

(** C10. Without refresh, a cached channel is what [getChannel] returns,
    whatever organisation, user and channel name it is asked for, and the
    store is left as it was. *)
Theorem getChannel_ignores_the_name_when_cached
  (W : World) (orgName userName channelName isRefresh : value) (s : Store) :
  truthy isRefresh = false ->
  truthy (CHANNEL s) = true ->
  getChannel W orgName userName channelName isRefresh s = (Ok (CHANNEL s), s)
  /\ forall orgName' userName' channelName' : value,
       getChannel W orgName' userName' channelName' isRefresh s
       = getChannel W orgName userName channelName isRefresh s.
Proof.
  intros Hr Hc. split.
  - apply getChannel_cached; assumption.
  - intros. rewrite !getChannel_cached by assumption. reflexivity.
Qed.

Lemma getChannel_ignores_the_name_when_cached_witness :
  let W := demo_world VNull VNull VNull in
  truthy VUndef = false
  /\ truthy (CHANNEL demo_cached) = true
  /\ getChannel W (VStr "Org1") (VStr "admin") (VStr "other") VUndef demo_cached
     = (Ok (VHandle 100), demo_cached).
Proof.
  intros W. split; [reflexivity |]. split; [reflexivity |].
  exact (proj1 (getChannel_ignores_the_name_when_cached W (VStr "Org1")
                  (VStr "admin") (VStr "other") VUndef demo_cached
                  eq_refl eq_refl)).
Defined.

(** The handle made for one channel name answers a later request for
    another. *)
Corollary getChannel_other_name_same_handle (W : World)
  (orgName userName name name' isRefresh : value) (s s1 : Store)
  (channel : value) :
  getChannel W orgName userName name isRefresh s = (Ok channel, s1) ->
  truthy channel = true ->
  getChannel W orgName userName name' VUndef s1 = (Ok channel, s1).
Proof.
  intros Hget Hch. apply getChannel_result in Hget. subst channel.
  apply getChannel_cached; [reflexivity | assumption].
Qed.

Example getChannel_other_name_in_demo :
  let W := demo_world VNull VNull VNull in
  let (r1, s1) := getChannel W (VStr "Org1") (VStr "admin") (VStr "mychannel")
                    VUndef initial_store in
  r1 = Ok (VHandle 100)
  /\ getChannel W (VStr "Org1") (VStr "admin") (VStr "other") VUndef s1
     = (Ok (VHandle 100), s1).
Proof. cbn. split; reflexivity. Qed.



(** With a default user context in place the same call goes through. *)
Example getClientForOrg_falls_back_in_demo :
  getClientForOrg (demo_world (VObj [("name", VStr "default")]) VNull VNull)
    (VStr "Org1") (VStr "bob") VUndef initial_store
  = (Ok (VHandle 0), {| CLIENT := VHandle 0; CHANNEL := VNull; fresh := 1 |}).
Proof. reflexivity. Qed.

(** Without [util] in the global scope the failure is a [ReferenceError]. *)
Lemma check_user_context_without_util (W : World) (client userName : value)
  (user default_user : value) :
  truthy userName = true ->
  call_method W client "getUserContext" [userName; VBool true] = Ok user ->
  truthy user = false ->
  call_method W client "getUserContext" [] = Ok default_user ->
  truthy default_user = false ->
  ambient W "util" = None ->
  check_user_context W client userName
  = Throw (ReferenceError "util is not defined").
Proof.
  intros Hname Huser Hnone Hdefault Hnone' Hutil.
  unfold check_user_context, ident.
  rewrite Hname, Huser. cbn [rbind]. rewrite Hnone. cbn [negb].
  rewrite Hdefault. cbn [rbind]. rewrite Hnone'. cbn [negb].
  rewrite Hutil. reflexivity.
Qed.

(** ** The query facade: a channel that is not defined *)

Lemma inspect_missing_channel (W : World)
  (orgName userName channelName : value) (method : string)
  (args : result (list value)) (s s' : Store) (channel : value) :
  getChannel W orgName userName channelName VUndef s = (Ok channel, s') ->
  truthy channel = false ->
  inspect W orgName userName channelName method args s
  = (Ok (VStr ("Error: " +++ channel_not_defined channelName)), s').
Proof.
  intros Hget Hmissing. unfold inspect, try_catch, mbind.
  rewrite Hget, Hmissing. reflexivity.
Qed.

Lemma queryChaincode_missing_channel (W : World)
  (peerNames channelName chaincodeName fcn args orgName userName : value)
  (s0 s s' : Store) (client channel : value) :
  getClientForOrg W orgName userName VUndef s0 = (Ok client, s) ->
  getChannel W orgName userName channelName VUndef s = (Ok channel, s') ->
  truthy channel = false ->
  queryChaincode W peerNames channelName chaincodeName fcn args orgName
    userName s0
  = (Ok (createReturn (VNum 202) (VStr "")
           (VStr (channel_not_defined channelName))
           (VStr (channel_not_defined channelName))), s').
Proof.
  intros Hclient Hget Hmissing. unfold queryChaincode, try_catch, mbind.
  rewrite Hclient, Hget, Hmissing. reflexivity.
Qed.

(** C8, as the code has it. When the channel resolves to a falsy handle,
    [queryChaincode] returns the QueryResult with code 202 and the message
    [Channel <name> was not defined in the connection profile], while
    [getBlockByNumber], [getTransactionByID], [getBlockByHash] and
    [getChannelInfo] return that message as the string of an [Error]; none
    of them throws. *)
Theorem missing_channel_is_reported
  (W : World)
  (peerNames peerName channelName chaincodeName fcn args orgName userName
   blockNumber trxnID hash : value)
  (s0 s s' : Store) (client channel : value) :
  getClientForOrg W orgName userName VUndef s0 = (Ok client, s) ->
  getChannel W orgName userName channelName VUndef s = (Ok channel, s') ->
  truthy channel = false ->
  let message := channel_not_defined channelName in
  queryChaincode W peerNames channelName chaincodeName fcn args orgName
    userName s0
  = (Ok (createReturn (VNum 202) (VStr "") (VStr message) (VStr message)), s')
  /\ getBlockByNumber W peerName channelName blockNumber orgName userName s
     = (Ok (VStr ("Error: " +++ message)), s')
  /\ getTransactionByID W peerName channelName trxnID orgName userName s
     = (Ok (VStr ("Error: " +++ message)), s')
  /\ getBlockByHash W peerName channelName hash orgName userName s
     = (Ok (VStr ("Error: " +++ message)), s')
  /\ getChannelInfo W peerName channelName orgName userName s
     = (Ok (VStr ("Error: " +++ message)), s').
Proof.
  intros Hclient Hget Hmissing message. split.
  - eapply queryChaincode_missing_channel; eassumption.
  - unfold getBlockByNumber, getTransactionByID, getBlockByHash,
      getChannelInfo.
    repeat split; eapply inspect_missing_channel; eassumption.
Qed.

Lemma missing_channel_is_reported_witness :
  let W := demo_world VNull VNull VNull in
  let s := {| CLIENT := VHandle 0; CHANNEL := VNull; fresh := 1 |} in
  let s' := {| CLIENT := VHandle 0; CHANNEL := VUndef; fresh := 1 |} in
  let message := "Channel other was not defined in the connection profile" in
  queryChaincode W (VArr []) (VStr "other") (VStr "mycc") (VStr "query")
    (VArr [VStr "a"]) (VStr "Org1") (VStr "admin") initial_store
  = (Ok (createReturn (VNum 202) (VStr "") (VStr message) (VStr message)), s')
  /\ getBlockByNumber W (VStr "peer0") (VStr "other") (VStr "5") (VStr "Org1")
       (VStr "admin") s
     = (Ok (VStr ("Error: " +++ message)), s').
Proof.
  intros W s s' message.
  pose proof (missing_channel_is_reported W (VArr []) (VStr "peer0")
                (VStr "other") (VStr "mycc") (VStr "query") (VArr [VStr "a"])
                (VStr "Org1") (VStr "admin") (VStr "5") (VStr "t") (VStr "aa")
                initial_store s s' (VHandle 0) VUndef
                eq_refl eq_refl eq_refl) as H.
  split; [exact (proj1 H) | exact (proj1 (proj2 H))].
Defined.

(** On a channel that is not defined, [getBlockByNumber] returns a string,
    not a QueryResult. *)
Lemma getBlockByNumber_missing_channel_is_a_string :
  let W := demo_world VNull VNull VNull in
  fst (getChannel W (VStr "Org1") (VStr "admin") (VStr "other") VUndef
         initial_store) = Ok VUndef
  /\ exists text,
       fst (getBlockByNumber W (VStr "peer0") (VStr "other") (VStr "5")
              (VStr "Org1") (VStr "admin") initial_store) = Ok (VStr text)
       /\ ~ is_QueryResult (VStr text).
Proof.
  intros W. split; [reflexivity |].
  exists "Error: Channel other was not defined in the connection profile".
  split; [reflexivity |].
  intros (c & p & m & d & H). discriminate H.
Qed.

(** ** The response normalizer *)

Lemma lookup_update_same (key : string) (v : value)
  (props : list (string * value)) :
  lookup key (update key v props) = v.
Proof.
  induction props as [| [k x] rest IH]; cbn.
  - rewrite String.eqb_refl. reflexivity.
  - destruct (String.eqb k key) eqn:E; cbn; rewrite E; auto.
Qed.

Lemma lookup_update_other (key key' : string) (v : value)
  (props : list (string * value)) :
  String.eqb key key' = false ->
  lookup key' (update key v props) = lookup key' props.
Proof.
  intros Hne. induction props as [| [k x] rest IH]; cbn.
  - rewrite Hne. reflexivity.
  - destruct (String.eqb k key) eqn:E; cbn.
    + apply String.eqb_eq in E. subst k. rewrite Hne. reflexivity.
    + destruct (String.eqb k key'); auto.
Qed.

(** Only a plain object has a truthy [payload] property. *)
Lemma truthy_payload_is_object (obj payload : value) :
  get_prop obj "payload" = Ok payload -> truthy payload = true ->
  exists props, obj = VObj props.
Proof.
  destruct obj; intros H Ht; try (eexists; reflexivity); exfalso;
    vm_compute in H; try discriminate H;
    injection H as <-; discriminate Ht.
Qed.

Lemma toString_utf8_text (v t : value) :
  toString_utf8 v = Ok t -> t = VStr (to_string v).
Proof.
  destruct v; cbn; intros H; inversion H; reflexivity.
Qed.

Lemma normalize_payload_result (W : World) (obj raw r : value) :
  get_prop obj "payload" = Ok raw -> truthy raw = true ->
  normalize_payload W obj = Ok r ->
  exists status p,
    r = createReturn status p (VStr "Success") (VStr "Success")
    /\ get_prop obj "status" = Ok status
    /\ decoded W raw p.
Proof.
  intros Hraw Htruthy.
  destruct (truthy_payload_is_object _ _ Hraw Htruthy) as [props ->].
  unfold normalize_payload. rewrite Hraw. cbn [rbind].
  destruct (toString_utf8 raw) as [t | e] eqn:Htext; cbn [rbind rtry];
    [| discriminate].
  pose proof (toString_utf8_text _ _ Htext) as ->. cbn [to_string].
  destruct (JSON_parse W (to_string raw)) as [parsed | e] eqn:Hparse;
    cbn [rbind rtry set_prop get_prop].
  - rewrite lookup_update_same, lookup_update_other by reflexivity.
    intros H. inversion H; subst.
    exists (lookup "status" props), parsed. repeat split.
    exists (to_string raw). split; [exact Htext | left; exact Hparse].
  - rewrite lookup_update_same, lookup_update_other by reflexivity.
    intros H. inversion H; subst.
    exists (lookup "status" props), (VStr (to_string raw)). repeat split.
    exists (to_string raw). split; [exact Htext |].
    right. split; [exists e; exact Hparse | reflexivity].
Qed.

Lemma normalize_error_result (W : World) (err r : value) :
  normalize_error W err = Ok r ->
  exists status message detail,
    r = createReturn status (VStr "") message detail.
Proof.
  unfold normalize_error.
  destruct (get_prop (plain_of_error err) "message") as [m | e];
    cbn [rbind rtry].
  - destruct (JSON_parse W (to_string m)) as [obj | e]; cbn [rbind rtry].
    + destruct (get_prop obj "status") as [st | e]; cbn [rbind rtry].
      * destruct (get_prop obj "msg") as [msg | e]; cbn [rbind rtry].
        -- intros H. inversion H. eauto.
        -- destruct (ident W "convertObj") as [c | e']; [| discriminate].
           cbn [rbind]. destruct (get_prop c "status"); [| discriminate].
           intros H. inversion H. eauto.
      * destruct (ident W "convertObj") as [c | e']; [| discriminate].
        cbn [rbind]. destruct (get_prop c "status"); [| discriminate].
        intros H. inversion H. eauto.
    + destruct (ident W "convertObj") as [c | e']; [| discriminate].
      cbn [rbind]. destruct (get_prop c "status"); [| discriminate].
      intros H. inversion H. eauto.
  - destruct (ident W "convertObj") as [c | e']; [| discriminate].
    cbn [rbind]. destruct (get_prop c "status"); [| discriminate].
    intros H. inversion H. eauto.
Qed.

Lemma normalize_result (W : World) (responses r : value) :
  normalize W responses = Ok r -> normalized W responses r.
Proof.
  unfold normalize.
  destruct (negb (truthy responses) || negb (is_array responses)).
  { intros H. inversion H. constructor. }
  destruct (get_prop responses "0") as [first | e] eqn:Hfirst;
    cbn [rbind]; [| discriminate].
  destruct (truthy first) eqn:Hfirst_truthy.
  2:{ intros H. inversion H. constructor. }
  assert (Hother :
    (response <- get_prop first "response" ;;
     payload <- (if truthy response then get_prop response "payload"
                 else Ok response) ;;
     if truthy payload then normalize_payload W response
     else Ok (createReturn (VNum 202) (VStr "")
                (VStr "queryByChaincode - unknown or missing results in query")
                (VStr ""))) = Ok r ->
    normalized W responses r).
  { destruct (get_prop first "response") as [response | e] eqn:Hresponse;
      cbn [rbind]; [| discriminate].
    destruct (truthy response) eqn:Hresponse_truthy.
    - destruct (get_prop response "payload") as [raw | e] eqn:Hraw;
        cbn [rbind]; [| discriminate].
      destruct (truthy raw) eqn:Hraw_truthy.
      + intros H.
        destruct (normalize_payload_result W response raw r Hraw Hraw_truthy H)
          as (status & p & -> & Hstatus & Hdecoded).
        eapply normalized_payload; eassumption.
      + intros H. inversion H. constructor.
    - cbn [rbind]. rewrite Hresponse_truthy.
      intros H. inversion H. constructor. }
  destruct first; try exact Hother.
  intros H. destruct (normalize_error_result W _ r H) as (st & m & d & ->).
  eapply normalized_error. exact Hfirst.
Qed.

Lemma query_failure_result (error r : value) :
  query_failure error = Ok r ->
  r = createReturn (VNum 202) (VStr "") (VStr (to_string error))
        (VStr (to_string error)).
Proof.
  unfold query_failure. destruct (get_prop error "stack"); cbn [rbind];
    intros H; inversion H; reflexivity.
Qed.

(** C4, as the code has it. Every result of [queryChaincode] is a
    QueryResult of one of three kinds: made from an endorser response with a
    payload, it carries the status of that response as its code, whatever
    the status is, the decoded payload, and [Success] as message and detail;
    made from an endorser error, it has the empty payload; otherwise it has
    the empty payload and the code 202. *)
Theorem queryChaincode_results
  (W : World)
  (peerNames channelName chaincodeName fcn args orgName userName : value)
  (s s' : Store) (r : value) :
  queryChaincode W peerNames channelName chaincodeName fcn args orgName
    userName s = (Ok r, s') ->
  is_QueryResult r /\ query_result W r.
Proof.
  intros H.
  assert (Hshape : query_result W r).
  { unfold queryChaincode, try_catch in H.
    match type of H with
    | context [match ?body s with _ => _ end] =>
        destruct (body s) as [[v | e] s''] eqn:Hbody
    end.
    - inversion H; subst v s''. clear H.
      unfold mbind at 1 in Hbody.
      destruct (getClientForOrg W orgName userName VUndef s)
        as [[client | e] s1]; [| discriminate].
      unfold mbind at 1 in Hbody.
      destruct (getChannel W orgName userName channelName VUndef s1)
        as [[channel | e] s2]; [| discriminate].
      destruct (negb (truthy channel)).
      + inversion Hbody. constructor.
      + unfold mbind, lift in Hbody.
        destruct (call_method W client "newTransactionID" [])
          as [tx_id | e]; [| discriminate].
        destruct (call_method W channel "sendTransactionProposal" _)
          as [proposalResults | e] eqn:Hsend; [| discriminate].
        destruct (get_prop proposalResults "0") as [responses | e] eqn:Hzero;
          [| discriminate].
        destruct (normalize W responses) as [r' | e] eqn:Hnorm;
          [| discriminate].
        inversion Hbody; subst r'.
        apply query_result_normalized with (responses := responses).
        * do 3 eexists. split; eassumption.
        * apply normalize_result. exact Hnorm.
    - unfold lift in H. inversion H as [[Hr Hs]].
      apply query_failure_result in Hr. subst r. constructor. }
  split; [| exact Hshape].
  unfold is_QueryResult.
  destruct Hshape as [m d | responses r _ Hn]; [eauto |].
  destruct Hn; eauto.
Qed.

Lemma queryChaincode_results_witness :
  demo_query demo_payload_201
  = (Ok (createReturn (VNum 201) (VStr "plain") (VStr "Success")
           (VStr "Success")), demo_cached)
  /\ is_QueryResult
       (createReturn (VNum 201) (VStr "plain") (VStr "Success")
          (VStr "Success")).
Proof.
  split; [reflexivity |].
  exact (proj1 (queryChaincode_results (demo_world VNull demo_payload_201 VNull)
                  (VArr []) (VStr "mychannel") (VStr "mycc") (VStr "query")
                  (VArr [VStr "a"]) (VStr "Org1") (VStr "admin")
                  initial_store demo_cached _ eq_refl)).
Defined.

(** A response whose status is 201 gives a QueryResult with the code 201, a
    payload and the message [Success]. *)
Lemma queryChaincode_forwards_status_201 :
  exists r, fst (demo_query demo_payload_201) = Ok r
            /\ get_prop r "statusCode" = Ok (VNum 201)
            /\ get_prop r "payload" = Ok (VStr "plain")
            /\ get_prop r "message" = Ok (VStr "Success")
            /\ ~ status_200_iff_success r.
Proof.
  eexists. split; [reflexivity |]. repeat split.
  intros [_ Hempty].
  assert (Hne : Ok (VNum 201) <> Ok (VNum 200)) by discriminate.
  specialize (Hempty Hne). discriminate Hempty.
Qed.

(** The examples of the design document. *)
Example queryChaincode_balance :
  fst (demo_query
         (VArr [VObj [("response",
                       VObj [("status", VNum 200);
                             ("payload",
                              VBuf (list_byte_of_string demo_balance))])]]))
  = Ok (createReturn (VNum 200) (VObj [("balance", VNum 100)])
          (VStr "Success") (VStr "Success")).
Proof. reflexivity. Qed.

(** An endorser error whose nested status is 200 gives the code 200 on a
    failure. *)
Example queryChaincode_nested_error_200 :
  fst (demo_query (VArr [VErr "Error" (Some demo_json_200)]))
  = Ok (createReturn (VNum 200) (VStr "") (VStr "odd") (VStr "odd")).
Proof. reflexivity. Qed.

Example queryChaincode_nested_error :
  fst (demo_query (VArr [VErr "Error" (Some demo_json)]))
  = Ok (createReturn (VNum 500) (VStr "") (VStr "not found")
          (VStr "not found")).
Proof. reflexivity. Qed.

(** *** An endorser error *)

(** When the message of the error parses to an object, its [status] and
    [msg] make the result. *)
Lemma normalize_error_parsed (W : World) (name text : string)
  (convertObj status msg : value) :
  JSON_parse W text = Ok convertObj ->
  get_prop convertObj "status" = Ok status ->
  get_prop convertObj "msg" = Ok msg ->
  normalize_error W (VErr name (Some text))
  = Ok (createReturn status (VStr "") msg msg).
Proof.
  intros Hparse Hstatus Hmsg. unfold normalize_error.
  cbn [plain_of_error get_prop lookup String.eqb Ascii.eqb Bool.eqb rbind
       to_string].
  rewrite Hparse. cbn [rbind]. rewrite Hstatus, Hmsg. reflexivity.
Qed.

(** When it does not parse, the [catch] block reads [convertObj], which is
    out of its scope: unless the global scope has such a variable, a
    [ReferenceError] leaves the normalizer, whatever the error was. *)
Lemma normalize_error_unparsed (W : World) (name text : string) (e : value) :
  JSON_parse W text = Throw e ->
  ambient W "convertObj" = None ->
  normalize_error W (VErr name (Some text))
  = Throw (ReferenceError "convertObj is not defined").
Proof.
  intros Hparse Hunbound. unfold normalize_error, ident.
  cbn [plain_of_error get_prop lookup String.eqb Ascii.eqb Bool.eqb rbind
       to_string].
  rewrite Hparse. cbn [rbind rtry]. rewrite Hunbound. reflexivity.
Qed.

Lemma get_prop_throws_errors (v : value) (k : string) (e : value) :
  get_prop v k = Throw e -> is_error e.
Proof.
  intros H. destruct v; cbn in H;
    repeat match type of H with
           | context [if ?c then _ else _] => destruct c
           | context [match ?c with _ => _ end] => destruct c
           end; try discriminate H;
    inversion H; unfold is_error, TypeError; eauto.
Qed.

Lemma toString_utf8_throws_errors (v e : value) :
  toString_utf8 v = Throw e -> is_error e.
Proof.
  intros H. destruct v; cbn in H; try discriminate H;
    inversion H; unfold is_error, TypeError; eauto.
Qed.

Lemma set_prop_throws_errors (v : value) (k : string) (y e : value) :
  set_prop v k y = Throw e -> is_error e.
Proof.
  intros H. destruct v; cbn in H; try discriminate H;
    inversion H; unfold is_error, TypeError; eauto.
Qed.

Lemma ident_throws_errors (W : World) (k : string) (e : value) :
  ident W k = Throw e -> is_error e.
Proof.
  unfold ident. destruct (ambient W k); [discriminate |].
  intros H. inversion H. unfold is_error, ReferenceError. eauto.
Qed.

Create HintDb js_errors.
#[local] Hint Resolve get_prop_throws_errors toString_utf8_throws_errors
  set_prop_throws_errors ident_throws_errors : js_errors.

(** Follows a computation known to throw down to the call that threw. *)
Ltac throws H :=
  lazymatch type of H with
  | Ok _ = Throw _ => discriminate H
  | rbind ?r _ = Throw _ =>
      let x := fresh "x" in
      let E := fresh "E" in
      destruct r as [x | x] eqn:E; cbn [rbind rtry] in H;
      [throws H | inversion H; subst x; clear H; throws E]
  | rtry ?r _ = Throw _ =>
      let x := fresh "x" in
      let E := fresh "E" in
      destruct r as [x | x] eqn:E; cbn [rbind rtry] in H;
      [discriminate H | clear E; throws H]
  | (if ?c then _ else _) = Throw _ => destruct c; throws H
  | _ => solve [eauto with js_errors]
  end.

Lemma normalize_payload_throws_errors (W : World) (obj e : value) :
  JSON_throws_errors W ->
  normalize_payload W obj = Throw e -> is_error e.
Proof.
  intros HJSON H. unfold JSON_throws_errors in HJSON.
  unfold normalize_payload in H. throws H.
Qed.

Lemma normalize_error_throws_errors (W : World) (err e : value) :
  normalize_error W err = Throw e -> is_error e.
Proof.
  intros H. unfold normalize_error in H. throws H.
Qed.

Lemma normalize_throws_errors (W : World) (responses e : value) :
  JSON_throws_errors W ->
  normalize W responses = Throw e -> is_error e.
Proof.
  intros HJSON H. unfold normalize in H.
  destruct (negb (truthy responses) || negb (is_array responses));
    [discriminate |].
  destruct (get_prop responses "0") as [first | x] eqn:Hfirst;
    cbn [rbind] in H; [| inversion H; subst; eauto with js_errors].
  destruct (truthy first); [| discriminate].
  assert (Hother :
    (response <- get_prop first "response" ;;
     payload <- (if truthy response then get_prop response "payload"
                 else Ok response) ;;
     if truthy payload then normalize_payload W response
     else Ok (createReturn (VNum 202) (VStr "")
                (VStr "queryByChaincode - unknown or missing results in query")
                (VStr ""))) = Throw e ->
    is_error e).
  { clear H. intros H.
    pose proof (normalize_payload_throws_errors W) as Hpayload.
    throws H. }
  destruct first; try (exact (Hother H)).
  eapply normalize_error_throws_errors; eassumption.
Qed.

(** The normalizer under the [catch] block of [queryChaincode] always
    yields a QueryResult: nothing is thrown past it. *)
Lemma normalize_then_catch_total (W : World) (responses : value) :
  JSON_throws_errors W ->
  exists r, rtry (normalize W responses) query_failure = Ok r
            /\ is_QueryResult r.
Proof.
  intros HJSON.
  destruct (normalize W responses) as [r | e] eqn:Hn; cbn [rtry].
  - exists r. split; [reflexivity |].
    apply normalize_result in Hn. unfold is_QueryResult.
    destruct Hn; eauto.
  - destruct (normalize_throws_errors W responses e HJSON Hn)
      as (name & message & ->).
    eexists. split; [reflexivity |]. unfold is_QueryResult. eauto.
Qed.

(** C5. An endorser error whose message is not JSON: the [catch] block of
    the nested parse reads [convertObj] out of its scope, the
    [ReferenceError] reaches the outer [catch], and the QueryResult carries
    the text of that [ReferenceError], the same whatever the endorser's
    error said. *)
Theorem queryChaincode_unparsed_error_text_is_lost :
  let lost := VStr "ReferenceError: convertObj is not defined" in
  fst (demo_query (VArr [VErr "Error" (Some "connection refused")]))
  = Ok (createReturn (VNum 202) (VStr "") lost lost)
  /\ fst (demo_query (VArr [VErr "Error" (Some "chaincode panicked")]))
     = Ok (createReturn (VNum 202) (VStr "") lost lost).
Proof. split; reflexivity. Qed.

(** ** The block crawler: its failure path *)

Lemma crawl_failure_unbound (W : World) (err : value) :
  ambient W "error" = None ->
  crawl_failure W err = Throw (ReferenceError "error is not defined").
Proof.
  intros Hunbound. unfold crawl_failure, ident. rewrite Hunbound. reflexivity.
Qed.

(** Were a global [error] to exist, the handler would report that value, not
    the exception it caught. *)
Lemma crawl_failure_ignores_the_exception (W : World) (err err' : value) :
  crawl_failure W err = crawl_failure W err'.
Proof. reflexivity. Qed.

(** Whatever the [try] block throws, [crawlBlock] throws a
    [ReferenceError] when the global scope has no [error]. *)
Lemma crawlBlock_rethrows (W : World) (blockNumberOrHash option : value)
  (s s' : Store) (e : value) :
  ambient W "error" = None ->
  crawl_body W blockNumberOrHash option s = (Throw e, s') ->
  crawlBlock W blockNumberOrHash option s
  = (Throw (ReferenceError "error is not defined"), s').
Proof.
  intros Hunbound Hbody. unfold crawlBlock, try_catch, lift.
  rewrite Hbody, crawl_failure_unbound by assumption. reflexivity.
Qed.

(** C3. A network error on [queryBlock], and a block without a header:
    in both cases the [catch] block of [crawlBlock], which binds [err] and
    reads [error], throws a [ReferenceError] to the caller. *)
Theorem crawlBlock_throws_past_its_boundary :
  fst (crawlBlock (demo_world VNull VNull (new_Error "timeout"))
         (VStr "5") (VStr "byNumber") initial_store)
  = Throw (ReferenceError "error is not defined")
  /\ fst (crawlBlock (demo_world VNull VNull demo_headless_block)
            (VStr "5") (VStr "byNumber") initial_store)
     = Throw (ReferenceError "error is not defined").
Proof. split; reflexivity. Qed.

(** ** The block crawler: completeness *)

Lemma get_prop_defined (v : value) (k : string) :
  nullish v = false -> exists x, get_prop v k = Ok x.
Proof.
  intros H. destruct v; try discriminate H; cbn;
    repeat match goal with
           | |- context [if ?c then _ else _] => destruct c
           | |- context [match ?c with _ => _ end] => destruct c
           end; eexists; reflexivity.
Qed.




(** ** The library models on known values *)

(** The test vectors of FIPS 180-4 for SHA-256: the empty message, one
    block and two blocks. *)
Example sha256_empty :
  SHA256.hex []
  = "e3b0c44298fc1c149afbf4c8996fb92427ae41e4649b934ca495991b7852b855".
Proof. vm_compute. reflexivity. Qed.

Example sha256_abc :
  SHA256.hex (list_byte_of_string "abc")
  = "ba7816bf8f01cfea414140de5dae2223b00361a396177a9cb410ff61f20015ad".
Proof. vm_compute. reflexivity. Qed.

Example sha256_two_blocks :
  SHA256.hex (list_byte_of_string
                "abcdbcdecdefdefgefghfghighijhijkijkljklmklmnlmnomnopnopq")
  = "248d6a61d20638b8e5c026930c3e6039a33ce45964ff2167f6ecedd419db06c1".
Proof. vm_compute. reflexivity. Qed.

(** DER integers: the sign byte appears when the high bit is set; lengths
    of 128 and more take the long form. *)
Example der_int_values :
  map (fun n => hex_encode (DER.der_int n)) [0; 127; 128; 256; 65535]%N
  = ["020100"; "02017f"; "02020080"; "02020100"; "020300ffff"].
Proof. vm_compute. reflexivity. Qed.

Example der_long_length :
  firstn 3 (DER.der_octstr (repeat xff 200)) = [x04; x81; xc8].
Proof. vm_compute. reflexivity. Qed.

Example parseInt_values :
  map parseInt [VStr "42"; VStr " 12ab"; VStr "0x1f"; VStr "-7"; VNum 5;
                VStr "x"; VUndef]
  = [VNum 42; VNum 12; VNum 31; VNum (-7); VNum 5; VNaN; VNaN].
Proof. vm_compute. reflexivity. Qed.

(** ** Round trips of the runtime's conversions *)




Lemma hex_decode_byte (b : byte) (rest : string) :
  hex_decode (hex_of_byte b +++ rest) = b :: hex_decode rest.
Proof. destruct b; reflexivity. Qed.

Lemma hex_decode_encode (l : list byte) : hex_decode (hex_encode l) = l.
Proof.
  induction l as [| b l IH]; [reflexivity |].
  cbn [hex_encode]. rewrite hex_decode_byte, IH. reflexivity.
Qed.

(** ** The DER encoding of a header and its reading back *)
















(** *** The block hash *)

Lemma header_der_value (h : value) (n : Z) (ph dh : string) :
  header_fields h n ph dh ->
  header_der h = Ok (header_encoding n (hex_decode ph) (hex_decode dh)).
Proof.
  intros (number & Hnumber & Hparse & Hpos & Hph & Hdh).
  unfold header_der. rewrite Hnumber, Hph, Hdh. cbn [rbind Buffer_from_hex].
  rewrite Hparse. unfold asn_encode_der, headerAsn.
  cbn [asn_encode_fields get_prop lookup rbind String.eqb Ascii.eqb Bool.eqb
       asn_encode_field].
  destruct (Z.leb_spec 0 n) as [_ | Hneg]; [| lia].
  cbn [rbind]. unfold header_encoding, DER.der_seq. cbn [List.concat].
  reflexivity.
Qed.

Lemma generateBlockHash_value (W : World) (h : value) (n : Z)
  (ph dh : string) :
  libraries_present W ->
  header_fields h n ph dh ->
  _generateBlockHash W h
  = Ok (VStr (SHA256.hex (header_encoding n (hex_decode ph) (hex_decode dh)))).
Proof.
  intros [Hasn Hsha] Hfields. unfold _generateBlockHash, ident.
  rewrite Hasn, Hsha, (header_der_value h n ph dh Hfields). reflexivity.
Qed.







Lemma demo_libraries_present (default_user responses block : value) :
  libraries_present (demo_world default_user responses block).
Proof. split; reflexivity. Qed.


(** The same header, evaluated: the bytes hashed and the digest. *)
Example header_encoding_5 :
  hex_encode (header_encoding 5 [xaa; x01] [xbb; x02])
  = "300b0201050402aa010402bb02".
Proof. vm_compute. reflexivity. Qed.

Example generateBlockHash_5 :
  _generateBlockHash (demo_world VNull VNull VNull)
    (raw_header (VStr "5") [xaa; x01] [xbb; x02])
  = Ok (VStr "1647750d6536935294e34bfe0f757c4cc99ff447beeaf5c88bfc631252ae77db").
Proof. vm_compute. reflexivity. Qed.



(** *** The crawl of a concrete block *)




Example crawlBlock_two_entries :
  fst (crawlBlock (demo_world VNull VNull (demo_block demo_entries))
         (VStr "5") (VStr "byNumber") initial_store)
  = Ok (VObj
          [("header",
            VObj [("number", VStr "5"); ("previous_hash", VStr "aa01");
                  ("data_hash", VStr "bb02");
                  ("block_hash",
                   VStr "1647750d6536935294e34bfe0f757c4cc99ff447beeaf5c88bfc631252ae77db")]);
           ("data",
            VArr [VObj [("timestamp", VStr "2020-01-01T00:00:00Z");
                        ("channel_id", VStr "mychannel");
                        ("tx_id", VStr "t1");
                        ("tx_type", VStr "ENDORSER_TRANSACTION");
                        ("ns_rwset", VArr [VStr "rw"])];
                  VObj [("timestamp", VStr "2020-01-01T00:00:00Z");
                        ("channel_id", VStr "mychannel");
                        ("tx_id", VStr "t2");
                        ("tx_type", VStr "ENDORSER_TRANSACTION");
                        ("ns_rwset", VArr [])]]);
           ("tx_code", VArr [VNum 0; VNum 0])]).
Proof. vm_compute. reflexivity. Qed.

(** An entry without a list of actions (a configuration transaction) is
    not one the callback can read: the access to [actions[0]] throws. *)
Example crawl_tx_without_actions :
  crawl_tx (VObj [("payload",
                   VObj [("header",
                          VObj [("channel_header",
                                 VObj [("tx_id", VStr "c0");
                                       ("typeString", VStr "CONFIG")])]);
                         ("data", VObj [("config", VObj [])])])])
  = Throw (TypeError "Cannot read property '0' of undefined").
Proof. reflexivity. Qed.

(** A data section with no entry gives a crawled block with no record. *)
Example crawlBlock_no_entry :
  exists header tx_code,
    fst (crawlBlock (demo_world VNull VNull (demo_block []))
           (VStr "5") (VStr "byNumber") initial_store)
    = Ok (VObj [("header", header); ("data", VArr []); ("tx_code", tx_code)]).
Proof. do 2 eexists. vm_compute. reflexivity. Qed.

(** * Further properties *)

(** ** The session cache: what a call leaves behind *)

Lemma js_or_idempotent (a b : value) : js_or (js_or a b) b = js_or a b.
Proof.
  unfold js_or. destruct (truthy a) eqn:Ha; [rewrite Ha; reflexivity |].
  destruct (truthy b); reflexivity.
Qed.

(** X1. [getClientForOrg] never writes the cached channel and never takes
    back an object identity; when it throws, the cached client is the one
    there was. *)
Theorem getClientForOrg_failure_keeps_the_cache
  (W : World) (orgName userName isRefresh : value) (s s' : Store)
  (r : result value) :
  getClientForOrg W orgName userName isRefresh s = (r, s') ->
  CHANNEL s' = CHANNEL s
  /\ (fresh s <= fresh s')%nat
  /\ (forall e, r = Throw e -> CLIENT s' = CLIENT s).
Proof.
  assert (Hdone : forall (x : result value) (t : Store),
            CHANNEL t = CHANNEL s -> (fresh s <= fresh t)%nat ->
            (forall e, x = Throw e -> CLIENT t = CLIENT s) ->
            (x, t) = (r, s') ->
            CHANNEL s' = CHANNEL s /\ (fresh s <= fresh s')%nat
            /\ (forall e, r = Throw e -> CLIENT s' = CLIENT s)).
  { intros x t Hc Hf Hk H. inversion H; subst. auto. }
  unfold getClientForOrg.
  destruct (negb (truthy isRefresh) && truthy (CLIENT s)).
  - apply Hdone; [reflexivity | lia | reflexivity].
  - unfold mbind, new_client, lift, set_CLIENT, ret.
    destruct (hfc_loadFromConfig W _); cbn.
    + destruct (host_call W (fresh s) "loadFromConfig" _);
        [| apply Hdone; cbn; [reflexivity | lia | reflexivity]].
      destruct (host_call W (fresh s) "initCredentialStores" _);
        [| apply Hdone; cbn; [reflexivity | lia | reflexivity]].
      destruct (check_user_context W _ _);
        apply Hdone; cbn; try reflexivity; try lia. discriminate.
    + apply Hdone; [reflexivity | lia | reflexivity].
Qed.

Lemma getClientForOrg_failure_keeps_the_cache_witness :
  let W := demo_world VNull VNull VNull in
  getClientForOrg W (VStr "Org1") (VStr "bob") (VBool true) demo_cached
  = (Throw (new_Error "User % was not found : bob"),
     {| CLIENT := VHandle 0; CHANNEL := VHandle 100; fresh := 2 |})
  /\ CLIENT {| CLIENT := VHandle 0; CHANNEL := VHandle 100; fresh := 2 |}
     = CLIENT demo_cached.
Proof.
  intros W. split; [reflexivity |].
  exact (proj2 (proj2 (getClientForOrg_failure_keeps_the_cache W (VStr "Org1")
                         (VStr "bob") (VBool true) demo_cached _ _ eq_refl))
           _ eq_refl).
Defined.

(** X2. With a client in the cache, [getChannel] builds no client, whatever
    it is asked: the cached client and the object counter are left as they
    were, and the organisation and the user it is given play no part. *)
Theorem getChannel_never_rebuilds_a_cached_client
  (W : World) (orgName userName channelName isRefresh : value)
  (s s' : Store) (r : result value) :
  truthy (CLIENT s) = true ->
  getChannel W orgName userName channelName isRefresh s = (r, s') ->
  CLIENT s' = CLIENT s
  /\ fresh s' = fresh s
  /\ forall orgName' userName' : value,
       getChannel W orgName' userName' channelName isRefresh s = (r, s').
Proof.
  intros Hclient.
  assert (Hshape : forall o u,
    getChannel W o u channelName isRefresh s
    = if negb (truthy isRefresh) && truthy (CHANNEL s)
      then (Ok (CHANNEL s), s)
      else match call_method W (CLIENT s) "getChannel"
                   [js_or channelName (process_env W "CHANNEL_NAME")] with
           | Ok ch => (Ok ch, {| CLIENT := CLIENT s; CHANNEL := ch;
                                  fresh := fresh s |})
           | Throw e => (Throw e, s)
           end).
  { intros o u. unfold getChannel.
    destruct (negb (truthy isRefresh) && truthy (CHANNEL s)); [reflexivity |].
    unfold mbind at 1. rewrite Hclient. cbn [negb].
    unfold mbind, get_CLIENT, lift, set_CHANNEL, ret. cbn.
    destruct (call_method W (CLIENT s) "getChannel" _); reflexivity. }
  rewrite Hshape. intros H.
  assert (Hframe : CLIENT s' = CLIENT s /\ fresh s' = fresh s).
  { destruct (negb (truthy isRefresh) && truthy (CHANNEL s)).
    - inversion H; subst. auto.
    - destruct (call_method W (CLIENT s) "getChannel" _);
        inversion H; subst; auto. }
  destruct Hframe as [Hc Hf]. repeat split; [exact Hc | exact Hf |].
  intros o' u'. rewrite Hshape. exact H.
Qed.

Lemma getChannel_never_rebuilds_a_cached_client_witness :
  let W := demo_world VNull VNull VNull in
  let s' := {| CLIENT := VHandle 0; CHANNEL := VUndef; fresh := 1 |} in
  getChannel W (VStr "Org2") (VStr "carol") (VStr "other") (VBool true)
    demo_cached = (Ok VUndef, s')
  /\ CLIENT s' = CLIENT demo_cached /\ fresh s' = fresh demo_cached.
Proof.
  intros W s'. split; [reflexivity |].
  pose proof (getChannel_never_rebuilds_a_cached_client W (VStr "Org2")
                (VStr "carol") (VStr "other") (VBool true) demo_cached s'
                (Ok VUndef) eq_refl eq_refl) as H.
  exact (conj (proj1 H) (proj1 (proj2 H))).
Defined.

(** X3. On an empty cache [getChannel] first builds the client, for the
    organisation and the user it is given or those of the environment, then
    asks that client for the channel, and caches both. *)
Theorem getChannel_builds_the_client_first
  (W : World) (orgName userName channelName isRefresh channel : value)
  (s : Store) :
  truthy (CLIENT s) = false ->
  negb (truthy isRefresh) && truthy (CHANNEL s) = false ->
  build_succeeds W orgName userName s ->
  call_method W (VHandle (fresh s)) "getChannel"
    [js_or channelName (process_env W "CHANNEL_NAME")] = Ok channel ->
  getChannel W orgName userName channelName isRefresh s
  = (Ok channel, {| CLIENT := VHandle (fresh s); CHANNEL := channel;
                    fresh := S (fresh s) |}).
Proof.
  intros Hclient Hmiss Hbuild Hchannel.
  assert (Hbuild' : build_succeeds W (js_or orgName (process_env W "ORG_NAME"))
                      (js_or userName (process_env W "USER_NAME")) s).
  { unfold build_succeeds in *. rewrite !js_or_idempotent. exact Hbuild. }
  unfold getChannel. rewrite Hmiss. unfold mbind at 1. rewrite Hclient.
  cbn [negb]. unfold mbind at 1.
  rewrite (getClientForOrg_builds W _ _ VUndef s);
    [| cbn; rewrite Hclient; reflexivity | exact Hbuild'].
  unfold set_CLIENT, mbind, get_CLIENT, lift, set_CHANNEL, ret, with_client.
  cbn. cbn in Hchannel. rewrite Hchannel. reflexivity.
Qed.

Lemma getChannel_builds_the_client_first_witness :
  getChannel (demo_world VNull VNull VNull) (VStr "Org1") (VStr "admin")
    (VStr "mychannel") VUndef initial_store
  = (Ok (VHandle 100), demo_cached).
Proof.
  exact (getChannel_builds_the_client_first (demo_world VNull VNull VNull)
           (VStr "Org1") (VStr "admin") (VStr "mychannel") VUndef (VHandle 100)
           initial_store eq_refl eq_refl
           (demo_build_succeeds VNull VNull VNull (VStr "Org1") initial_store)
           eq_refl).
Defined.

(** X4. A refresh of the client does not refresh the channel: after it the
    cache still holds the channel obtained from the former client, and
    [getChannel] without refresh returns that channel. *)
Theorem client_refresh_leaves_a_stale_channel
  (W : World) (orgName userName channelName : value) (s : Store) :
  truthy (CHANNEL s) = true ->
  build_succeeds W orgName userName s ->
  let (r1, s1) := getClientForOrg W orgName userName (VBool true) s in
  r1 = Ok (VHandle (fresh s))
  /\ CLIENT s1 = VHandle (fresh s)
  /\ getChannel W orgName userName channelName VUndef s1
     = (Ok (CHANNEL s), s1).
Proof.
  intros Hchannel Hbuild.
  rewrite (getClientForOrg_builds W orgName userName (VBool true) s eq_refl
             Hbuild).
  repeat split.
  exact (getChannel_cached W orgName userName channelName VUndef
           (with_client s) eq_refl Hchannel).
Qed.

Lemma client_refresh_leaves_a_stale_channel_witness :
  let W := demo_world VNull VNull VNull in
  let (r1, s1) := getClientForOrg W (VStr "Org1") (VStr "admin") (VBool true)
                    demo_cached in
  r1 = Ok (VHandle 1)
  /\ CLIENT s1 = VHandle 1
  /\ getChannel W (VStr "Org1") (VStr "admin") (VStr "mychannel") VUndef s1
     = (Ok (VHandle 100), s1).
Proof.
  exact (client_refresh_leaves_a_stale_channel (demo_world VNull VNull VNull)
           (VStr "Org1") (VStr "admin") (VStr "mychannel") demo_cached eq_refl
           (demo_build_succeeds VNull VNull VNull (VStr "Org1") demo_cached)).
Defined.

(** ** The store through the facade *)

Lemma preserves_wf_lift {A} (r : result A) : preserves_wf (lift r).
Proof. intros s x s' Hwf H. inversion H; subst. exact Hwf. Qed.

Lemma preserves_wf_ret {A} (a : A) : preserves_wf (ret a).
Proof. intros s x s' Hwf H. inversion H; subst. exact Hwf. Qed.

Lemma preserves_wf_throw {A} (e : value) : preserves_wf (@throw A e).
Proof. intros s x s' Hwf H. inversion H; subst. exact Hwf. Qed.

Lemma preserves_wf_bind {A B} (m : M A) (k : A -> M B) :
  preserves_wf m -> (forall a, preserves_wf (k a)) -> preserves_wf (mbind m k).
Proof.
  intros Hm Hk s r s' Hwf. unfold mbind.
  destruct (m s) as [[a | e] s1] eqn:E.
  - apply (Hk a). eapply Hm; eassumption.
  - intros H. inversion H; subst. eapply Hm; eassumption.
Qed.

Lemma preserves_wf_try {A} (m : M A) (h : value -> M A) :
  preserves_wf m -> (forall e, preserves_wf (h e)) ->
  preserves_wf (try_catch m h).
Proof.
  intros Hm Hh s r s' Hwf. unfold try_catch.
  destruct (m s) as [[a | e] s1] eqn:E.
  - intros H. inversion H; subst. eapply Hm; eassumption.
  - apply (Hh e). eapply Hm; eassumption.
Qed.

Lemma preserves_wf_getClientForOrg (W : World) (o u r : value) :
  preserves_wf (getClientForOrg W o u r).
Proof. intros s x s' Hwf H. eapply getClientForOrg_wf; eassumption. Qed.

Lemma preserves_wf_getChannel (W : World) (o u c r : value) :
  preserves_wf (getChannel W o u c r).
Proof. intros s x s' Hwf H. eapply getChannel_wf; eassumption. Qed.

Create HintDb store_wf.
#[local] Hint Resolve preserves_wf_lift preserves_wf_ret preserves_wf_throw
  preserves_wf_getClientForOrg preserves_wf_getChannel : store_wf.

(** Splits a computation into its steps, each of which keeps the store. *)
Ltac keeps_store :=
  repeat first
    [ apply preserves_wf_try; [| intros ?]
    | apply preserves_wf_bind; [| intros ?]
    | match goal with
      | |- preserves_wf (if ?c then _ else _) => destruct c
      end
    | solve [auto with store_wf] ].

Lemma preserves_wf_inspect (W : World) (o u c : value) (method : string)
  (args : result (list value)) :
  preserves_wf (inspect W o u c method args).
Proof. unfold inspect. keeps_store. Qed.

(** X5. Every operation of the facade keeps the store well formed: at any
    time the cached client is absent or an object the client factory has
    handed out, whatever the operations answered or threw. *)
Theorem facade_keeps_the_store_well_formed (W : World) :
  (forall peerNames channelName chaincodeName fcn args orgName userName,
     preserves_wf (queryChaincode W peerNames channelName chaincodeName fcn
                     args orgName userName))
  /\ (forall peerName channelName blockNumber orgName userName,
        preserves_wf (getBlockByNumber W peerName channelName blockNumber
                        orgName userName))
  /\ (forall peerName channelName trxnID orgName userName,
        preserves_wf (getTransactionByID W peerName channelName trxnID
                        orgName userName))
  /\ (forall peerName channelName hash orgName userName,
        preserves_wf (getBlockByHash W peerName channelName hash orgName
                        userName))
  /\ (forall peerName channelName orgName userName,
        preserves_wf (getChannelInfo W peerName channelName orgName userName))
  /\ (forall peerName channelName type orgName,
        preserves_wf (getInstalledChaincodes W peerName channelName type
                        orgName))
  /\ (forall peerName orgName, preserves_wf (getChannels W peerName orgName))
  /\ (forall blockNumberOrHash option,
        preserves_wf (crawlBlock W blockNumberOrHash option)).
Proof.
  repeat split; intros;
    unfold getBlockByNumber, getTransactionByID, getBlockByHash,
      getChannelInfo;
    try apply preserves_wf_inspect.
  - unfold queryChaincode. keeps_store.
  - unfold getInstalledChaincodes. keeps_store.
  - unfold getChannels. keeps_store.
  - unfold crawlBlock, crawl_body. keeps_store.
Qed.

(** ** Nothing but a result leaves the facade *)

Lemma throws_errors_lift {A} (r : result A) :
  rthrows_errors r -> throws_errors (lift r).
Proof. intros Hr s e s' H. inversion H; subst. apply Hr. reflexivity. Qed.

Lemma throws_errors_ret {A} (a : A) : throws_errors (ret a).
Proof. intros s e s' H. discriminate H. Qed.

Lemma throws_errors_throw {A} (e : value) :
  is_error e -> throws_errors (@throw A e).
Proof. intros He s x s' H. inversion H; subst. exact He. Qed.

Lemma throws_errors_bind {A B} (m : M A) (k : A -> M B) :
  throws_errors m -> (forall a, throws_errors (k a)) ->
  throws_errors (mbind m k).
Proof.
  intros Hm Hk s e s'. unfold mbind.
  destruct (m s) as [[a | x] s1] eqn:E.
  - apply (Hk a).
  - intros H. inversion H; subst. eapply Hm; eassumption.
Qed.

Lemma call_method_throws_errors (W : World) (recv : value) (m : string)
  (args : list value) :
  network_throws_errors W -> rthrows_errors (call_method W recv m args).
Proof.
  intros [Hhost _] e H. destruct recv; cbn in H;
    try (inversion H; unfold is_error, TypeError; eauto; fail).
  eapply Hhost; eassumption.
Qed.

Lemma lib_method_throws_errors (recv : value) (lib m : string) :
  rthrows_errors (lib_method recv lib m).
Proof.
  intros e H. destruct recv; cbn in H;
    try (inversion H; unfold is_error, TypeError; eauto; fail).
  destruct (String.eqb lib0 lib); [discriminate |].
  inversion H; unfold is_error, TypeError; eauto.
Qed.

Lemma Buffer_from_hex_throws_errors (v : value) :
  rthrows_errors (Buffer_from_hex v).
Proof.
  intros e H. destruct v; cbn in H; try discriminate H;
    inversion H; unfold is_error, TypeError; eauto.
Qed.

Lemma check_user_context_throws_errors (W : World) (client userName : value) :
  network_throws_errors W ->
  rthrows_errors (check_user_context W client userName).
Proof.
  intros Hnet e H.
  pose proof (call_method_throws_errors W) as Hcall.
  unfold rthrows_errors in Hcall.
  pose proof lib_method_throws_errors as Hlib. unfold rthrows_errors in Hlib.
  unfold check_user_context in H.
  destruct (truthy userName); [| discriminate].
  destruct (call_method W client "getUserContext" [userName; VBool true])
    as [user | x] eqn:E1; cbn [rbind] in H; [| inversion H; subst; eauto].
  destruct (truthy user); cbn [negb] in H; [discriminate |].
  destruct (call_method W client "getUserContext" []) as [user' | x] eqn:E2;
    cbn [rbind] in H; [| inversion H; subst; eauto].
  destruct (truthy user'); cbn [negb] in H; [discriminate |].
  destruct (ident W "util") as [util | x] eqn:E3; cbn [rbind] in H;
    [| inversion H; subst; eauto with js_errors].
  destruct (lib_method util "util" "format") as [u | x] eqn:E4;
    cbn [rbind] in H; inversion H; subst; [| eauto].
  unfold is_error, new_Error. eauto.
Qed.

Lemma throws_errors_new_client (W : World) (path : value) :
  network_throws_errors W -> throws_errors (new_client W path).
Proof.
  intros [_ Hload] s e s'. unfold new_client.
  destruct (hfc_loadFromConfig W path) eqn:E; [discriminate |].
  intros H. inversion H; subst. eapply Hload; eassumption.
Qed.

Lemma throws_errors_getClientForOrg (W : World) (o u r : value) :
  network_throws_errors W -> throws_errors (getClientForOrg W o u r).
Proof.
  intros Hnet s e s'. unfold getClientForOrg.
  destruct (negb (truthy r) && truthy (CLIENT s)); [discriminate |].
  revert s e s'.
  change (throws_errors
    (client <~ new_client W
                 (hfc_getConfigSetting W "network-connection-profile-path") ;;
     _ <~ lift (call_method W client "loadFromConfig"
                  [hfc_getConfigSetting W
                     (to_string (js_or o (process_env W "ORG_NAME"))
                      +++ "-connection-profile-path")]) ;;
     _ <~ lift (call_method W client "initCredentialStores" []) ;;
     _ <~ lift (check_user_context W client
                  (js_or u (process_env W "USER_NAME"))) ;;
     _ <~ set_CLIENT client ;;
     ret client)).
  apply throws_errors_bind; [apply throws_errors_new_client; exact Hnet |].
  intros client.
  apply throws_errors_bind;
    [apply throws_errors_lift, call_method_throws_errors; exact Hnet |].
  intros _.
  apply throws_errors_bind;
    [apply throws_errors_lift, call_method_throws_errors; exact Hnet |].
  intros _.
  apply throws_errors_bind;
    [apply throws_errors_lift, check_user_context_throws_errors; exact Hnet |].
  intros _.
  apply throws_errors_bind; [intros s e s' H; discriminate H |].
  intros _. apply throws_errors_ret.
Qed.

Lemma throws_errors_getChannel (W : World) (o u c r : value) :
  network_throws_errors W -> throws_errors (getChannel W o u c r).
Proof.
  intros Hnet s e s'. unfold getChannel.
  destruct (negb (truthy r) && truthy (CHANNEL s)); [discriminate |].
  revert s e s'.
  match goal with
  | |- forall s e s', ?m s = _ -> _ => change (throws_errors m)
  end.
  apply throws_errors_bind.
  - intros s e s'. destruct (negb (truthy (CLIENT s))); [| discriminate].
    revert s e s'.
    match goal with
    | |- forall s e s', ?m s = _ -> _ => change (throws_errors m)
    end.
    apply throws_errors_bind;
      [apply throws_errors_getClientForOrg; exact Hnet |].
    intros a s e s' H. discriminate H.
  - intros _. apply throws_errors_bind; [intros s e s' H; discriminate H |].
    intros client.
    apply throws_errors_bind;
      [apply throws_errors_lift, call_method_throws_errors; exact Hnet |].
    intros ch. apply throws_errors_bind; [intros s e s' H; discriminate H |].
    intros _. apply throws_errors_ret.
Qed.

(** Under the [catch] block of the inspection operations, a computation that
    throws [Error] objects only always returns. *)
Lemma caught_as_a_string (body : M value) (s : Store) :
  throws_errors body ->
  exists v s',
    try_catch body (fun error => lift (inspect_failure error)) s = (Ok v, s')
    /\ (body s = (Ok v, s') \/ exists text, v = VStr text).
Proof.
  intros Hbody. unfold try_catch.
  destruct (body s) as [[v | e] s1] eqn:E.
  - exists v, s1. split; [reflexivity | left; reflexivity].
  - destruct (Hbody s e s1 E) as (name & message & ->).
    eexists. exists s1. split; [reflexivity | right; eauto].
Qed.

Lemma inspect_outcome (W : World) (o u c : value) (method : string)
  (args : result (list value)) (s : Store) :
  network_throws_errors W -> rthrows_errors args ->
  exists v s',
    inspect W o u c method args s = (Ok v, s')
    /\ inspection_outcome W method v.
Proof.
  intros Hnet Hargs. unfold inspect.
  match goal with
  | |- context [try_catch ?body _] =>
      destruct (caught_as_a_string body s) as (v & s' & Hrun & Hv)
  end.
  { apply throws_errors_bind; [apply throws_errors_getChannel; exact Hnet |].
    intros channel. destruct (negb (truthy channel)).
    - apply throws_errors_throw. unfold is_error, new_Error. eauto.
    - apply throws_errors_bind; [apply throws_errors_lift; exact Hargs |].
      intros a.
      apply throws_errors_bind;
        [apply throws_errors_lift, call_method_throws_errors; exact Hnet |].
      intros p. destruct (truthy p); apply throws_errors_ret. }
  exists v, s'. split; [exact Hrun |].
  destruct Hv as [Hbody | Hstring]; [| left; exact Hstring].
  unfold mbind at 1 in Hbody.
  destruct (getChannel W o u c VUndef s) as [[channel | e] s1];
    [| discriminate].
  destruct (negb (truthy channel)); [discriminate |].
  unfold mbind, lift in Hbody.
  destruct args as [a | e]; [| discriminate].
  destruct (call_method W channel method a) as [p | e] eqn:Hcall;
    [| discriminate].
  destruct (truthy p) eqn:Hp; inversion Hbody; subst.
  - right. eauto.
  - left. eauto.
Qed.

(** X6. When the network client fails with [Error] objects only, the four
    ledger-inspection operations never throw: each returns either a string
    (the text of the failure, or the notice that the answer was empty) or
    the truthy answer the network gave to its query. *)
Theorem inspection_never_throws
  (W : World) (peerName channelName orgName userName x : value) (s : Store) :
  network_throws_errors W ->
  (exists v s', getBlockByNumber W peerName channelName x orgName userName s
                = (Ok v, s') /\ inspection_outcome W "queryBlock" v)
  /\ (exists v s', getTransactionByID W peerName channelName x orgName
                     userName s = (Ok v, s')
                   /\ inspection_outcome W "queryTransaction" v)
  /\ (exists v s', getBlockByHash W peerName channelName x orgName userName s
                   = (Ok v, s')
                   /\ inspection_outcome W "queryBlockByHash" v)
  /\ (exists v s', getChannelInfo W peerName channelName orgName userName s
                   = (Ok v, s') /\ inspection_outcome W "queryInfo" v).
Proof.
  intros Hnet.
  unfold getBlockByNumber, getTransactionByID, getBlockByHash, getChannelInfo.
  repeat split; apply inspect_outcome; try exact Hnet;
    try (intros e H; discriminate H).
  intros e H.
  destruct (Buffer_from_hex x) as [b | y] eqn:E; cbn [rbind] in H;
    [discriminate |].
  inversion H; subst. eapply Buffer_from_hex_throws_errors. exact E.
Qed.

Lemma demo_network_throws_errors (default_user responses block : value) :
  network_throws_errors (demo_world default_user responses block).
Proof.
  split; [| intros path e H; discriminate H].
  intros id m args e H. cbn in H. unfold demo_host_call in H.
  repeat match type of H with
         | context [if ?c then _ else _] => destruct c
         | context [match ?x with _ => _ end] => destruct x
         end; try discriminate H;
    inversion H; unfold is_error; eauto.
Qed.

Lemma inspection_never_throws_witness :
  let W := demo_world VNull VNull (new_Error "timeout") in
  exists v s',
    getBlockByNumber W (VStr "peer0") (VStr "mychannel") (VStr "5")
      (VStr "Org1") (VStr "admin") initial_store = (Ok v, s')
    /\ inspection_outcome W "queryBlock" v.
Proof.
  intros W.
  exact (proj1 (inspection_never_throws W (VStr "peer0") (VStr "mychannel")
                  (VStr "Org1") (VStr "admin") (VStr "5") initial_store
                  (demo_network_throws_errors VNull VNull
                     (new_Error "timeout")))).
Defined.

Example getBlockByNumber_network_error :
  fst (getBlockByNumber (demo_world VNull VNull (new_Error "timeout"))
         (VStr "peer0") (VStr "mychannel") (VStr "5") (VStr "Org1")
         (VStr "admin") initial_store)
  = Ok (VStr "Error: timeout").
Proof. reflexivity. Qed.

Lemma returns_QueryResult_bind {A} (m : M A) (k : A -> M value) :
  (forall a, returns_QueryResult (k a)) -> returns_QueryResult (mbind m k).
Proof.
  intros Hk s r s'. unfold mbind.
  destruct (m s) as [[a | e] s1]; [apply (Hk a) | discriminate].
Qed.

Lemma returns_QueryResult_normalize (W : World) (responses : value) :
  returns_QueryResult (lift (normalize W responses)).
Proof.
  intros s r s' H. inversion H as [[Hn Hs]].
  apply normalize_result in Hn. unfold is_QueryResult.
  destruct Hn; eauto.
Qed.

(** X7. When the network client and [JSON.parse] fail with [Error] objects
    only, [queryChaincode] never throws, and what it returns is always a
    four-field QueryResult. *)
Theorem queryChaincode_always_returns_a_QueryResult
  (W : World)
  (peerNames channelName chaincodeName fcn args orgName userName : value)
  (s : Store) :
  network_throws_errors W ->
  JSON_throws_errors W ->
  exists r s',
    queryChaincode W peerNames channelName chaincodeName fcn args orgName
      userName s = (Ok r, s')
    /\ is_QueryResult r.
Proof.
  intros Hnet HJSON. unfold queryChaincode, try_catch.
  match goal with
  | |- context [match ?body s with _ => _ end] =>
      assert (Hthrows : throws_errors body);
      [| assert (Hreturns : returns_QueryResult body);
         [| destruct (body s) as [[v | e] s1] eqn:Hbody]]
  end.
  - apply throws_errors_bind;
      [apply throws_errors_getClientForOrg; exact Hnet |].
    intros client.
    apply throws_errors_bind; [apply throws_errors_getChannel; exact Hnet |].
    intros channel. destruct (negb (truthy channel));
      [apply throws_errors_ret |].
    apply throws_errors_bind;
      [apply throws_errors_lift, call_method_throws_errors; exact Hnet |].
    intros tx_id.
    apply throws_errors_bind;
      [apply throws_errors_lift, call_method_throws_errors; exact Hnet |].
    intros proposalResults.
    apply throws_errors_bind;
      [apply throws_errors_lift; intros e H;
       eapply get_prop_throws_errors; exact H |].
    intros responses. apply throws_errors_lift. intros e H.
    eapply normalize_throws_errors; eassumption.
  - apply returns_QueryResult_bind. intros client.
    apply returns_QueryResult_bind. intros channel.
    destruct (negb (truthy channel)).
    + intros s0 r s' H. inversion H. unfold is_QueryResult. eauto.
    + do 3 (apply returns_QueryResult_bind; intros ?).
      apply returns_QueryResult_normalize.
  - exists v, s1. split; [reflexivity |]. eapply Hreturns. exact Hbody.
  - destruct (Hthrows s e s1 Hbody) as (name & message & ->).
    eexists. exists s1. split; [reflexivity |]. unfold is_QueryResult. eauto.
Qed.

Lemma demo_JSON_throws_errors (default_user responses block : value) :
  JSON_throws_errors (demo_world default_user responses block).
Proof.
  intros text e H. cbn in H. unfold demo_JSON_parse in H.
  repeat match type of H with
         | context [if ?c then _ else _] => destruct c
         end; try discriminate H.
  inversion H. unfold is_error, SyntaxError. eauto.
Qed.

Lemma queryChaincode_always_returns_a_QueryResult_witness :
  exists r s',
    queryChaincode (demo_world VNull (VArr [VNum 7]) VNull) (VArr [])
      (VStr "mychannel") (VStr "mycc") (VStr "query") (VArr [VStr "a"])
      (VStr "Org1") (VStr "admin") initial_store = (Ok r, s')
    /\ is_QueryResult r.
Proof.
  exact (queryChaincode_always_returns_a_QueryResult
           (demo_world VNull (VArr [VNum 7]) VNull) (VArr [])
           (VStr "mychannel") (VStr "mycc") (VStr "query") (VArr [VStr "a"])
           (VStr "Org1") (VStr "admin") initial_store
           (demo_network_throws_errors VNull (VArr [VNum 7]) VNull)
           (demo_JSON_throws_errors VNull (VArr [VNum 7]) VNull)).
Defined.

(** ** A rejection that is no [Error] *)

(** X8. When the query of an inspection operation is rejected with
    [undefined] or [null], the [catch] block itself throws: its logging
    reads [error.stack], and the [TypeError] of that read reaches the
    caller. *)
Theorem rejection_with_undefined_is_thrown_on
  (W : World) (orgName userName channelName channel e : value)
  (method : string) (args : list value) (s s' : Store) :
  getChannel W orgName userName channelName VUndef s = (Ok channel, s') ->
  truthy channel = true ->
  call_method W channel method args = Throw e ->
  nullish e = true ->
  inspect W orgName userName channelName method (Ok args) s
  = (Throw (TypeError ("Cannot read property 'stack' of " +++ to_string e)),
     s').
Proof.
  intros Hget Htruthy Hcall Hnull.
  unfold inspect, try_catch, mbind, lift.
  rewrite Hget, Htruthy. cbn [negb]. rewrite Hcall.
  destruct e; try discriminate Hnull; reflexivity.
Qed.

Lemma rejection_with_undefined_is_thrown_on_witness :
  getChannelInfo (inventory_world VNull) (VStr "peer0") (VStr "mychannel")
    (VStr "Org1") (VStr "admin") initial_store
  = (Throw (TypeError "Cannot read property 'stack' of undefined"),
     demo_cached).
Proof.
  exact (rejection_with_undefined_is_thrown_on (inventory_world VNull)
           (VStr "Org1") (VStr "admin") (VStr "mychannel") (VHandle 100)
           VUndef "queryInfo" [VStr "peer0"] initial_store demo_cached
           eq_refl eq_refl eq_refl eq_refl).
Defined.

(** ** The inventories *)

Lemma index_key_is_not_length (u : Decimal.uint) :
  String.eqb (NilEmpty.string_of_uint u) "length" = false.
Proof. destruct u; reflexivity. Qed.

Lemma string_of_nat_index (i : nat) :
  string_of_Z (Z.of_nat i)
  = NilEmpty.string_of_uint (N.to_uint (N.of_nat i)).
Proof.
  unfold string_of_Z. destruct i; [reflexivity |].
  cbn [Z.of_nat Z.to_int N.of_nat N.to_uint NilEmpty.string_of_int].
  reflexivity.
Qed.

Lemma array_index_of_nat (i : nat) :
  array_index (string_of_Z (Z.of_nat i)) = Some i.
Proof.
  unfold array_index. rewrite string_of_nat_index, NilEmpty.usu.
  rewrite Unsigned.of_to, nat_N_Z, <- string_of_nat_index.
  rewrite String.eqb_refl, Nat2N.id. reflexivity.
Qed.

(** Reading an array at a loop index gives the element at that position,
    [undefined] past the end. *)
Lemma at_index_array (items : list value) (i : nat) :
  at_index (VArr items) i = Ok (nth i items VUndef).
Proof.
  unfold at_index, get_prop.
  rewrite string_of_nat_index, index_key_is_not_length.
  rewrite <- string_of_nat_index, array_index_of_nat. reflexivity.
Qed.

Lemma for_indices_over_array {A} (f : value -> result A)
  (before items : list value) :
  for_indices (fun i => x <- at_index (VArr (before ++ items)) i ;; f x)
    (seq (List.length before) (List.length items))
  = collect f items.
Proof.
  revert before. induction items as [| x rest IH]; intros before;
    [reflexivity |].
  cbn [List.length seq for_indices collect].
  rewrite at_index_array, nth_middle. cbn [rbind].
  destruct (f x) as [y | e]; cbn [rbind]; [| reflexivity].
  specialize (IH (before ++ [x])).
  rewrite <- app_assoc, length_app, Nat.add_1_r in IH. cbn [app] in IH.
  rewrite IH. reflexivity.
Qed.

Lemma loop_indices_of_array (items : list value) :
  (length <- get_prop (VArr items) "length" ;; Ok (loop_indices length))
  = Ok (seq 0 (List.length items)).
Proof.
  cbn [get_prop String.eqb Ascii.eqb Bool.eqb rbind].
  unfold loop_indices. cbn [to_number]. rewrite Nat2Z.id. reflexivity.
Qed.

Lemma chaincode_descriptor_defined (cc : value) :
  nullish cc = false -> chaincode_descriptor cc = Ok (descriptor_of cc).
Proof.
  intros Hcc. unfold chaincode_descriptor, descriptor_of, field.
  destruct (get_prop_defined cc "name" Hcc) as [n ->].
  destruct (get_prop_defined cc "version" Hcc) as [v ->].
  destruct (get_prop_defined cc "path" Hcc) as [p ->].
  reflexivity.
Qed.

Lemma collect_descriptors (items : list value) :
  Forall (fun cc => nullish cc = false) items ->
  collect chaincode_descriptor items = Ok (map descriptor_of items).
Proof.
  induction 1 as [| cc rest Hcc _ IH]; [reflexivity |].
  cbn [collect map]. rewrite (chaincode_descriptor_defined cc Hcc), IH.
  reflexivity.
Qed.

Lemma chaincode_details_of_array (response : value) (items : list value) :
  get_prop response "chaincodes" = Ok (VArr items) ->
  Forall (fun cc => nullish cc = false) items ->
  chaincode_details response
  = Ok (VArr (map (fun cc => VStr (descriptor_of cc)) items)).
Proof.
  intros Hcc Hitems. unfold chaincode_details. rewrite Hcc. cbn [rbind].
  pose proof (loop_indices_of_array items) as Hloop.
  destruct (get_prop (VArr items) "length") as [len | e]; cbn [rbind] in *;
    [| discriminate].
  inversion Hloop as [Hidx]. rewrite Hidx.
  pose proof (for_indices_over_array chaincode_descriptor [] items) as Hfor.
  cbn [app List.length] in Hfor. rewrite Hfor.
  rewrite (collect_descriptors items Hitems). cbn [rbind].
  rewrite map_map. reflexivity.
Qed.

(** X9. [getInstalledChaincodes] returns one descriptor
    [name: N, version: V, path: P] for each entry of the response's
    [chaincodes] array, in the order of the array; a field an entry lacks
    prints as [undefined].  With the type ['installed'] the channel cache is
    not touched. *)
Theorem getInstalledChaincodes_describes_every_chaincode
  (W : World)
  (peerName channelName type orgName userName client response : value)
  (items : list value) (s s1 s2 : Store) :
  ambient W "userName" = Some userName ->
  getClientForOrg W orgName userName VUndef s = (Ok client, s1) ->
  inventory_query W peerName channelName type orgName userName client response
    s1 s2 ->
  truthy response = true ->
  get_prop response "chaincodes" = Ok (VArr items) ->
  Forall (fun cc => nullish cc = false) items ->
  getInstalledChaincodes W peerName channelName type orgName s
  = (Ok (VArr (map (fun cc => VStr (descriptor_of cc)) items)), s2).
Proof.
  intros Huser Hclient Hquery Htruthy Hcc Hitems.
  pose proof (chaincode_details_of_array response items Hcc Hitems) as Hdetails.
  unfold getInstalledChaincodes, try_catch, mbind, lift, ident.
  rewrite Huser, Hclient. unfold inventory_query in Hquery.
  destruct (strict_eq_string type "installed").
  - destruct Hquery as [Hcall ->]. rewrite Hcall, Htruthy, Hdetails.
    reflexivity.
  - destruct Hquery as (channel & Hget & Hch & Hcall).
    rewrite Hget, Hch. cbn [negb]. rewrite Hcall, Htruthy, Hdetails.
    reflexivity.
Qed.

Lemma getInstalledChaincodes_describes_every_chaincode_witness :
  getInstalledChaincodes (inventory_world demo_chaincodes) (VStr "peer0")
    (VStr "mychannel") (VStr "installed") (VStr "Org1") initial_store
  = (Ok (VArr [VStr "name: mycc, version: 1.0, path: github.com/mycc";
               VStr "name: other, version: 2, path: undefined"]),
     {| CLIENT := VHandle 0; CHANNEL := VNull; fresh := 1 |}).
Proof.
  refine (getInstalledChaincodes_describes_every_chaincode
            (inventory_world demo_chaincodes) (VStr "peer0") (VStr "mychannel")
            (VStr "installed") (VStr "Org1") (VStr "admin") (VHandle 0)
            demo_chaincodes _ initial_store _ _
            eq_refl eq_refl (conj eq_refl eq_refl) eq_refl eq_refl _).
  repeat constructor.
Defined.

Lemma collect_channel_names (items : list value) :
  Forall (fun ch => nullish ch = false) items ->
  succeeds (collect
              (fun channel => channel_id <- get_prop channel "channel_id" ;;
                              Ok ("channel id: " +++ to_string channel_id))
              items).
Proof.
  induction 1 as [| ch rest Hok _ IH]; [eexists; reflexivity |].
  cbn [collect]. destruct (get_prop_defined ch "channel_id" Hok) as [id ->].
  cbn [rbind]. destruct IH as [names ->]. eexists. reflexivity.
Qed.

Lemma channel_names_defined (response : value) (items : list value) :
  get_prop response "channels" = Ok (VArr items) ->
  Forall (fun ch => nullish ch = false) items ->
  succeeds (channel_names response).
Proof.
  intros Hch Hitems. unfold channel_names. rewrite Hch. cbn [rbind].
  pose proof (loop_indices_of_array items) as Hloop.
  destruct (get_prop (VArr items) "length") as [len | e]; cbn [rbind] in *;
    [| discriminate].
  inversion Hloop as [Hidx]. rewrite Hidx.
  pose proof (for_indices_over_array
                (fun channel => channel_id <- get_prop channel "channel_id" ;;
                                Ok ("channel id: " +++ to_string channel_id))
                [] items) as Hfor.
  cbn [app List.length] in Hfor. rewrite Hfor.
  apply collect_channel_names. exact Hitems.
Qed.

(** X10. [getChannels] returns the response of [queryChannels] itself, as
    the network gave it: the list of names its loop builds is logged, not
    returned. *)
Theorem getChannels_returns_the_response_itself
  (W : World) (peerName orgName userName client response : value)
  (items : list value) (s s1 : Store) :
  ambient W "userName" = Some userName ->
  getClientForOrg W orgName userName VUndef s = (Ok client, s1) ->
  call_method W client "queryChannels" [peerName] = Ok response ->
  truthy response = true ->
  get_prop response "channels" = Ok (VArr items) ->
  Forall (fun ch => nullish ch = false) items ->
  getChannels W peerName orgName s = (Ok response, s1).
Proof.
  intros Huser Hclient Hcall Htruthy Hch Hitems.
  destruct (channel_names_defined response items Hch Hitems) as [names Hn].
  unfold getChannels, try_catch, mbind, lift, ident.
  rewrite Huser, Hclient, Hcall, Htruthy, Hn. reflexivity.
Qed.

Lemma getChannels_returns_the_response_itself_witness :
  getChannels (inventory_world demo_channels) (VStr "peer0") (VStr "Org1")
    initial_store
  = (Ok demo_channels, {| CLIENT := VHandle 0; CHANNEL := VNull; fresh := 1 |}).
Proof.
  refine (getChannels_returns_the_response_itself
            (inventory_world demo_channels) (VStr "peer0") (VStr "Org1")
            (VStr "admin") (VHandle 0) demo_channels _ initial_store _
            eq_refl eq_refl eq_refl eq_refl eq_refl _).
  repeat constructor.
Defined.

(** X11. A response of [queryChannels] that has no [channels] list is not
    returned: the loop over it throws, and [getChannels] returns the text
    of that [TypeError] in its place. *)
Theorem getChannels_loses_a_response_without_channels
  (W : World) (peerName orgName userName client response channels : value)
  (s s1 : Store) :
  ambient W "userName" = Some userName ->
  getClientForOrg W orgName userName VUndef s = (Ok client, s1) ->
  call_method W client "queryChannels" [peerName] = Ok response ->
  truthy response = true ->
  get_prop response "channels" = Ok channels ->
  nullish channels = true ->
  getChannels W peerName orgName s
  = (Ok (VStr ("TypeError: Cannot read property 'length' of "
               +++ to_string channels)), s1).
Proof.
  intros Huser Hclient Hcall Htruthy Hch Hnull.
  unfold getChannels, try_catch, mbind, lift, ident, channel_names.
  rewrite Huser, Hclient, Hcall, Htruthy, Hch.
  destruct channels; try discriminate Hnull; reflexivity.
Qed.

Lemma getChannels_loses_a_response_without_channels_witness :
  getChannels (inventory_world (VObj [("peer", VStr "peer0")])) (VStr "peer0")
    (VStr "Org1") initial_store
  = (Ok (VStr "TypeError: Cannot read property 'length' of undefined"),
     {| CLIENT := VHandle 0; CHANNEL := VNull; fresh := 1 |}).
Proof.
  exact (getChannels_loses_a_response_without_channels
           (inventory_world (VObj [("peer", VStr "peer0")])) (VStr "peer0")
           (VStr "Org1") (VStr "admin") (VHandle 0)
           (VObj [("peer", VStr "peer0")]) VUndef initial_store _
           eq_refl eq_refl eq_refl eq_refl eq_refl eq_refl).
Defined.

(** X12. [getInstalledChaincodes] and [getChannels] read [userName], which
    is neither a parameter nor declared: in a global scope without it both
    return the text of the [ReferenceError], whatever their arguments, and
    reach neither the cache nor the network. *)
Theorem inventories_need_a_global_userName
  (W : World) (peerName channelName type orgName : value) (s : Store) :
  ambient W "userName" = None ->
  getInstalledChaincodes W peerName channelName type orgName s
  = (Ok (VStr "ReferenceError: userName is not defined"), s)
  /\ getChannels W peerName orgName s
     = (Ok (VStr "ReferenceError: userName is not defined"), s).
Proof.
  intros Hunbound.
  unfold getInstalledChaincodes, getChannels, try_catch, mbind, lift, ident.
  rewrite Hunbound. split; reflexivity.
Qed.

Lemma inventories_need_a_global_userName_witness :
  getInstalledChaincodes bare_world (VStr "peer0") (VStr "mychannel")
    (VStr "installed") (VStr "Org1") initial_store
  = (Ok (VStr "ReferenceError: userName is not defined"), initial_store)
  /\ getChannels bare_world (VStr "peer0") (VStr "Org1") initial_store
     = (Ok (VStr "ReferenceError: userName is not defined"), initial_store).
Proof.
  exact (inventories_need_a_global_userName bare_world (VStr "peer0")
           (VStr "mychannel") (VStr "installed") (VStr "Org1") initial_store
           eq_refl).
Defined.

(** X13. [getInstalledChaincodes] with a type other than ['installed'] and
    a channel that resolves to a falsy handle returns the text of the
    [Error] that names the channel. *)
Theorem getInstalledChaincodes_missing_channel
  (W : World)
  (peerName channelName type orgName userName client channel : value)
  (s s1 s2 : Store) :
  ambient W "userName" = Some userName ->
  strict_eq_string type "installed" = false ->
  getClientForOrg W orgName userName VUndef s = (Ok client, s1) ->
  getChannel W orgName userName channelName VUndef s1 = (Ok channel, s2) ->
  truthy channel = false ->
  getInstalledChaincodes W peerName channelName type orgName s
  = (Ok (VStr ("Error: " +++ channel_not_defined channelName)), s2).
Proof.
  intros Huser Htype Hclient Hget Hmissing.
  unfold getInstalledChaincodes, try_catch, mbind, lift, ident.
  rewrite Huser, Hclient, Htype, Hget, Hmissing. reflexivity.
Qed.

Lemma getInstalledChaincodes_missing_channel_witness :
  getInstalledChaincodes (inventory_world demo_chaincodes) (VStr "peer0")
    (VStr "other") (VStr "instantiated") (VStr "Org1") initial_store
  = (Ok (VStr "Error: Channel other was not defined in the connection profile"),
     {| CLIENT := VHandle 0; CHANNEL := VUndef; fresh := 1 |}).
Proof.
  exact (getInstalledChaincodes_missing_channel
           (inventory_world demo_chaincodes) (VStr "peer0") (VStr "other")
           (VStr "instantiated") (VStr "Org1") (VStr "admin") (VHandle 0)
           VUndef initial_store _ _ eq_refl eq_refl eq_refl eq_refl eq_refl).
Defined.

(** ** The block hash: its shape and what it separates *)

Lemma string_append_assoc (a b c : string) : (a +++ b) +++ c = a +++ b +++ c.
Proof. induction a as [| x a IH]; cbn; [| rewrite IH]; reflexivity. Qed.

Lemma be_fixed_length (width : nat) (x : Z) :
  List.length (SHA256.be_fixed width x) = width.
Proof.
  revert x. induction width as [| w IH]; intros x; [reflexivity |].
  cbn [SHA256.be_fixed]. rewrite length_app, IH. cbn. lia.
Qed.

Lemma digest_length (msg : list byte) :
  List.length (SHA256.digest msg) = 32%nat.
Proof.
  unfold SHA256.digest.
  destruct (fold_left SHA256.compress _ SHA256.init)
    as [[[[[[[a b] c] d] e] f] g] h].
  rewrite !length_app, !be_fixed_length. reflexivity.
Qed.

Lemma hex_encode_length (l : list byte) :
  String.length (hex_encode l) = (2 * List.length l)%nat.
Proof.
  induction l as [| b l IH]; [reflexivity |].
  cbn [hex_encode hex_of_byte String.append String.length List.length].
  rewrite IH. lia.
Qed.

(** X14. Whatever header it accepts, [_generateBlockHash] returns a string
    of 64 characters: the lower-case hexadecimal of a digest of 32 bytes. *)
Theorem generateBlockHash_is_64_hex_digits
  (W : World) (header v : value) :
  _generateBlockHash W header = Ok v ->
  exists digest,
    v = VStr (hex_encode digest)
    /\ List.length digest = 32%nat
    /\ String.length (hex_encode digest) = 64%nat.
Proof.
  unfold _generateBlockHash. intros H.
  destruct (ident W "asn") as [asn | e]; cbn [rbind] in H; [| discriminate].
  destruct (lib_method asn "asn1.js" "define"); cbn [rbind] in H;
    [| discriminate].
  destruct (header_der header) as [output | e]; cbn [rbind] in H;
    [| discriminate].
  destruct (ident W "sha") as [sha | e]; cbn [rbind] in H; [| discriminate].
  destruct (lib_method sha "js-sha256" "sha256"); cbn [rbind] in H;
    [| discriminate].
  cbn [sha_sha256] in H. inversion H. unfold SHA256.hex.
  exists (SHA256.digest output). split; [reflexivity |].
  split; [apply digest_length |].
  rewrite hex_encode_length, digest_length. reflexivity.
Qed.

Lemma generateBlockHash_is_64_hex_digits_witness :
  exists digest,
    VStr (SHA256.hex (header_encoding 5 [xaa; x01] [xbb; x02]))
    = VStr (hex_encode digest)
    /\ List.length digest = 32%nat
    /\ String.length (hex_encode digest) = 64%nat.
Proof.
  refine (generateBlockHash_is_64_hex_digits (demo_world VNull VNull VNull)
            (raw_header (VStr "5") [xaa; x01] [xbb; x02]) _ _).
  apply (generateBlockHash_value (demo_world VNull VNull VNull) _ 5
           "aa01" "bb02" (demo_libraries_present VNull VNull VNull)).
  exists (VStr "5"). repeat split; try reflexivity. lia.
Defined.



(** The decoding of a hexadecimal text goes through a well-formed prefix and
    carries on with what follows. *)
Lemma hex_decode_app (l : list byte) (suffix : string) :
  hex_decode (hex_encode l +++ suffix) = l ++ hex_decode suffix.
Proof.
  induction l as [| b l IH]; [reflexivity |].
  cbn [hex_encode]. rewrite string_append_assoc, hex_decode_byte, IH. reflexivity.
Qed.

(** X16. The hexadecimal text of a hash is read up to the first pair that
    is not two hexadecimal digits: a trailing odd digit, or anything after a
    character that is no digit, is dropped without notice, and the header
    hashes as if it were not there. *)
Theorem generateBlockHash_drops_what_is_not_hexadecimal
  (W : World) (number : value) (p d : list byte) (junk junk' : string) :
  hex_decode junk = [] ->
  hex_decode junk' = [] ->
  _generateBlockHash W
    (VObj [("number", number);
           ("previous_hash", VStr (hex_encode p +++ junk));
           ("data_hash", VStr (hex_encode d +++ junk'))])
  = _generateBlockHash W (raw_header number p d).
Proof.
  intros Hjunk Hjunk'. unfold _generateBlockHash, header_der, raw_header.
  cbn [get_prop lookup String.eqb Ascii.eqb Bool.eqb rbind Buffer_from_hex].
  rewrite !hex_decode_app, Hjunk, Hjunk', !List.app_nil_r, !hex_decode_encode.
  reflexivity.
Qed.

Lemma generateBlockHash_drops_what_is_not_hexadecimal_witness :
  _generateBlockHash (demo_world VNull VNull VNull)
    (VObj [("number", VStr "5"); ("previous_hash", VStr "aa01f");
           ("data_hash", VStr "bb02zz99")])
  = _generateBlockHash (demo_world VNull VNull VNull)
      (raw_header (VStr "5") [xaa; x01] [xbb; x02]).
Proof.
  exact (generateBlockHash_drops_what_is_not_hexadecimal
           (demo_world VNull VNull VNull) (VStr "5") [xaa; x01] [xbb; x02]
           "f" "zz99" eq_refl eq_refl).
Defined.

(** ** The block crawler: its other outcomes *)

(** X17. When the network answers nothing, or a block whose [data] has no
    [data] list, [crawlBlock] returns [null]: it reads neither the header
    nor the metadata, and computes no hash. *)
Theorem crawlBlock_absent_data_is_null
  (W : World) (blockNumberOrHash option : value) (s s' : Store)
  (orgName userName channelName channel blockResult : value) :
  ambient W "orgName" = Some orgName ->
  ambient W "userName" = Some userName ->
  ambient W "channelName" = Some channelName ->
  getChannel W orgName userName channelName VUndef s = (Ok channel, s') ->
  fetch_block W channel blockNumberOrHash option = Ok blockResult ->
  (truthy blockResult = false
   \/ exists txs, get_path blockResult ["data"; "data"] = Ok txs
                  /\ truthy txs = false) ->
  crawlBlock W blockNumberOrHash option s = (Ok VNull, s').
Proof.
  intros Horg Huser Hchannel Hget Hfetch Habsent.
  unfold crawlBlock, try_catch, crawl_body, mbind, lift, ident.
  rewrite Horg, Huser, Hchannel, Hget, Hfetch. unfold crawl_result.
  destruct (truthy blockResult); [| reflexivity].
  destruct Habsent as [Hfalse | (txs & Hdata & Htxs)]; [discriminate |].
  rewrite Hdata. cbn [rbind]. rewrite Htxs. reflexivity.
Qed.

Lemma crawlBlock_absent_data_is_null_witness :
  crawlBlock (demo_world VNull VNull (VObj [("data", VObj [])])) (VStr "5")
    (VStr "byNumber") initial_store
  = (Ok VNull, demo_cached).
Proof.
  refine (crawlBlock_absent_data_is_null
            (demo_world VNull VNull (VObj [("data", VObj [])])) (VStr "5")
            (VStr "byNumber") initial_store demo_cached (VStr "Org1")
            (VStr "admin") (VStr "mychannel") (VHandle 100)
            (VObj [("data", VObj [])])
            eq_refl eq_refl eq_refl eq_refl eq_refl _).
  right. exists VUndef. split; reflexivity.
Defined.




Lemma for_each_fails_on_an_unreadable_entry
  (f : value -> result value) (items : list value) (d e : value) :
  In d items -> f d = Throw e -> exists e', for_each f items = Throw e'.
Proof.
  intros Hin Hd. induction items as [| x rest IH]; [contradiction |].
  cbn [for_each]. destruct (f x) as [tx | ex] eqn:Hx; cbn [rbind];
    [| eauto].
  destruct Hin as [-> | Hin]; [congruence |].
  destruct (IH Hin) as [e' ->]. cbn [rbind]. eauto.
Qed.

(** X19. One entry that the callback cannot read makes the whole crawl
    fail: no block is returned, whatever the other entries are. *)
Theorem crawlBlock_fails_on_one_unreadable_entry
  (W : World) (blockNumberOrHash option : value) (s s' : Store)
  (orgName userName channelName channel blockResult d e : value)
  (entries : list value) :
  ambient W "orgName" = Some orgName ->
  ambient W "userName" = Some userName ->
  ambient W "channelName" = Some channelName ->
  ambient W "error" = None ->
  getChannel W orgName userName channelName VUndef s = (Ok channel, s') ->
  fetch_block W channel blockNumberOrHash option = Ok blockResult ->
  get_path blockResult ["data"; "data"] = Ok (VArr entries) ->
  In d entries ->
  crawl_tx d = Throw e ->
  crawlBlock W blockNumberOrHash option s
  = (Throw (ReferenceError "error is not defined"), s').
Proof.
  intros Horg Huser Hchannel Herror Hget Hfetch Hdata Hin Hd.
  destruct (for_each_fails_on_an_unreadable_entry crawl_tx entries d e Hin Hd)
    as [e' Hfails].
  assert (Hresult : exists x, crawl_result W blockResult = Throw x).
  { unfold crawl_result.
    destruct (truthy blockResult) eqn:Htruthy.
    2:{ destruct blockResult; try discriminate Htruthy; discriminate Hdata. }
    rewrite Hdata. cbn [rbind truthy negb]. rewrite Hfails.
    repeat match goal with
           | |- exists x, rbind ?r _ = Throw x =>
               destruct r; cbn [rbind]; [| eauto]
           end.
    eauto. }
  destruct Hresult as [x Hx].
  apply crawlBlock_rethrows with (e := x); [exact Herror |].
  unfold crawl_body, mbind, lift, ident.
  rewrite Horg, Huser, Hchannel, Hget, Hfetch, Hx. reflexivity.
Qed.

Lemma crawlBlock_fails_on_one_unreadable_entry_witness :
  crawlBlock
    (demo_world VNull VNull (demo_block [demo_tx "t1" []; demo_config_tx]))
    (VStr "5") (VStr "byNumber") initial_store
  = (Throw (ReferenceError "error is not defined"), demo_cached).
Proof.
  refine (crawlBlock_fails_on_one_unreadable_entry
            (demo_world VNull VNull
               (demo_block [demo_tx "t1" []; demo_config_tx]))
            (VStr "5") (VStr "byNumber") initial_store demo_cached
            (VStr "Org1") (VStr "admin") (VStr "mychannel") (VHandle 100)
            (demo_block [demo_tx "t1" []; demo_config_tx]) demo_config_tx
            (TypeError "Cannot read property '0' of undefined")
            [demo_tx "t1" []; demo_config_tx]
            eq_refl eq_refl eq_refl eq_refl eq_refl eq_refl eq_refl _ eq_refl).
  right. left. reflexivity.
Defined.

(** X20. [crawlBlock] reads [orgName], [userName] and [channelName], which
    are neither parameters nor declared, and its [catch] block reads
    [error]: in a global scope with none of them every call throws a
    [ReferenceError], before the cache or the network is reached. *)
Theorem crawlBlock_needs_its_globals
  (W : World) (blockNumberOrHash option : value) (s : Store) :
  ambient W "orgName" = None ->
  ambient W "error" = None ->
  crawlBlock W blockNumberOrHash option s
  = (Throw (ReferenceError "error is not defined"), s).
Proof.
  intros Horg Herror.
  apply crawlBlock_rethrows
    with (e := ReferenceError "orgName is not defined"); [exact Herror |].
  unfold crawl_body, mbind, lift, ident. rewrite Horg. reflexivity.
Qed.

Lemma crawlBlock_needs_its_globals_witness :
  crawlBlock bare_world (VStr "5") (VStr "byNumber") initial_store
  = (Throw (ReferenceError "error is not defined"), initial_store).
Proof.
  exact (crawlBlock_needs_its_globals bare_world (VStr "5") (VStr "byNumber")
           initial_store eq_refl eq_refl).
Defined.

(** ** The query: which endorser counts *)

(** X21. [queryChaincode] answers from the first endorser only: with the
    session cached, its result is what the normalizer, under the [catch] of
    the operation, makes of the first entry of the endorsers' responses;
    what the other endorsers answered, errors included, changes nothing,
    and the cache is left as it was. *)
Theorem queryChaincode_answers_from_the_first_endorser
  (W : World)
  (peerNames channelName chaincodeName fcn args orgName userName : value)
  (tx_id proposalResults first : value) (others : list value) (s : Store) :
  truthy (CLIENT s) = true ->
  truthy (CHANNEL s) = true ->
  call_method W (CLIENT s) "newTransactionID" [] = Ok tx_id ->
  call_method W (CHANNEL s) "sendTransactionProposal"
    [VObj [("targets", peerNames); ("chaincodeId", chaincodeName);
           ("fcn", fcn); ("args", args); ("chainId", channelName);
           ("txId", tx_id)]]
  = Ok proposalResults ->
  get_prop proposalResults "0" = Ok (VArr (first :: others)) ->
  queryChaincode W peerNames channelName chaincodeName fcn args orgName
    userName s
  = (rtry (normalize W (VArr [first])) query_failure, s).
Proof.
  intros Hclient Hchannel Htx Hsend Hfirst.
  unfold queryChaincode, try_catch, mbind, lift, ret.
  rewrite (getClientForOrg_cached W orgName userName VUndef s eq_refl Hclient).
  rewrite (getChannel_cached W orgName userName channelName VUndef s eq_refl
             Hchannel).
  rewrite Hchannel. cbn [negb]. rewrite Htx, Hsend, Hfirst.
  change (normalize W (VArr (first :: others)))
    with (normalize W (VArr [first])).
  destruct (normalize W (VArr [first])); reflexivity.
Qed.

Lemma queryChaincode_answers_from_the_first_endorser_witness :
  queryChaincode
    (demo_world VNull
       (VArr [VObj [("response",
                     VObj [("status", VNum 200);
                           ("payload",
                            VBuf (list_byte_of_string demo_balance))])];
              new_Error "connection refused"])
       VNull)
    (VArr []) (VStr "mychannel") (VStr "mycc") (VStr "query")
    (VArr [VStr "a"]) (VStr "Org1") (VStr "admin") demo_cached
  = (Ok (createReturn (VNum 200) (VObj [("balance", VNum 100)])
           (VStr "Success") (VStr "Success")),
     demo_cached).
Proof.
  exact (queryChaincode_answers_from_the_first_endorser
           (demo_world VNull
              (VArr [VObj [("response",
                            VObj [("status", VNum 200);
                                  ("payload",
                                   VBuf (list_byte_of_string demo_balance))])];
                     new_Error "connection refused"])
              VNull)
           (VArr []) (VStr "mychannel") (VStr "mycc") (VStr "query")
           (VArr [VStr "a"]) (VStr "Org1") (VStr "admin")
           (VObj [("_transaction_id", VStr "tx1")]) _ _
           [new_Error "connection refused"] demo_cached
           eq_refl eq_refl eq_refl eq_refl eq_refl).
Defined.

(** ** The session cache under the facade *)

(** X22. A failure of the session cache inside [queryChaincode] is reported
    as a QueryResult: the code 202, the empty payload, and the text of the
    exception as message and detail. *)
Theorem queryChaincode_reports_a_session_failure
  (W : World)
  (peerNames channelName chaincodeName fcn args orgName userName e : value)
  (s s' : Store) :
  getClientForOrg W orgName userName VUndef s = (Throw e, s') ->
  nullish e = false ->
  queryChaincode W peerNames channelName chaincodeName fcn args orgName
    userName s
  = (Ok (createReturn (VNum 202) (VStr "") (VStr (to_string e))
           (VStr (to_string e))), s').
Proof.
  intros Hclient He. unfold queryChaincode, try_catch, mbind, lift.
  rewrite Hclient. unfold query_failure.
  destruct (get_prop_defined e "stack" He) as [stack ->]. reflexivity.
Qed.

Lemma queryChaincode_reports_a_session_failure_witness :
  queryChaincode (demo_world VNull VNull VNull) (VArr []) (VStr "mychannel")
    (VStr "mycc") (VStr "query") (VArr [VStr "a"]) (VStr "Org1") (VStr "bob")
    initial_store
  = (Ok (createReturn (VNum 202) (VStr "")
           (VStr "Error: User % was not found : bob")
           (VStr "Error: User % was not found : bob")),
     {| CLIENT := VNull; CHANNEL := VNull; fresh := 1 |}).
Proof.
  exact (queryChaincode_reports_a_session_failure
           (demo_world VNull VNull VNull) (VArr []) (VStr "mychannel")
           (VStr "mycc") (VStr "query") (VArr [VStr "a"]) (VStr "Org1")
           (VStr "bob") (new_Error "User % was not found : bob")
           initial_store _ eq_refl eq_refl).
Defined.

(** X23. A name left out (any falsy argument) is taken from the process
    environment: a call of [getClientForOrg] or [getChannel] is the call
    with [ORG_NAME], [USER_NAME] and [CHANNEL_NAME] put in the place of the
    names that are falsy. *)
Theorem names_default_to_the_environment
  (W : World) (orgName userName channelName isRefresh : value) (s : Store) :
  getClientForOrg W orgName userName isRefresh s
  = getClientForOrg W (js_or orgName (process_env W "ORG_NAME"))
      (js_or userName (process_env W "USER_NAME")) isRefresh s
  /\ getChannel W orgName userName channelName isRefresh s
     = getChannel W (js_or orgName (process_env W "ORG_NAME"))
         (js_or userName (process_env W "USER_NAME"))
         (js_or channelName (process_env W "CHANNEL_NAME")) isRefresh s.
Proof.
  unfold getClientForOrg, getChannel. rewrite !js_or_idempotent.
  split; reflexivity.
Qed.
